(** * The research-paper dashboard (app.py): loading, filtering, aggregation

    A shallow embedding of [src/app.py].  The script is a pandas pipeline:
    [load_data] reads a table and derives two columns, the sidebar builds
    three select boxes, lines 42-48 narrow a copy of the frame by up to
    three equality masks, and the tabs compute value counts, a
    missing-value summary and title word frequencies.

    Conventions of the model
    - a pandas scalar is a [cell]; [NaN] and [NaT] are the absent values;
      floating-point year values are carried as integers;
    - a DataFrame is its column labels and its rows, a row being an
      association list from column label to cell;
    - frames live in a store ([heap]) and are named by references, so that
      in-place column assignment ([df[c] = ...]) and fresh allocation
      ([df.copy()], [df[mask]]) are told apart;
    - a Python [KeyError] is the [KeyError] result;
    - text is ASCII: [str.lower], [str.split] and the regex class [\w] are
      modelled on code points below 128. *)

From Stdlib Require Import List String Ascii Bool Arith ZArith Lia.
From Stdlib Require Import Permutation Sorted DecimalString.
Import ListNotations.
Local Open Scope string_scope.
Local Open Scope list_scope.

Set Implicit Arguments.

(* ===================================================================== *)
(** ** Python text primitives *)
(* ===================================================================== *)

Module PyStr.

Definition code (c : ascii) : nat := nat_of_ascii c.

Definition in_range (lo hi : nat) (c : ascii) : bool :=
  ((lo <=? code c)%nat && (code c <=? hi)%nat)%bool.

(** [str.isspace] on ASCII: TAB..CR, FS..US and the space. *)
Definition is_space (c : ascii) : bool :=
  in_range 9 13 c || in_range 28 32 c.

(** The regex class [\w] on ASCII: letters, digits and the underscore. *)
Definition is_word (c : ascii) : bool :=
  in_range 48 57 c || in_range 65 90 c || in_range 97 122 c
  || (code c =? 95)%nat.

Definition lower_char (c : ascii) : ascii :=
  if in_range 65 90 c then ascii_of_nat (code c + 32) else c.

(** [s.lower()] *)
Fixpoint lower (s : string) : string :=
  match s with
  | EmptyString => EmptyString
  | String c r => String (lower_char c) (lower r)
  end.

(** A scanner that cuts [s] into the maximal runs of characters
    satisfying [p]; [cur] is the run being read, in reverse. *)
Fixpoint rev_string (acc s : string) : string :=
  match s with
  | EmptyString => acc
  | String c r => rev_string (String c acc) r
  end.

Definition flush (cur : string) (out : list string) : list string :=
  match cur with
  | EmptyString => out
  | _ => rev_string EmptyString cur :: out
  end.

Fixpoint scan (p : ascii -> bool) (cur : string) (s : string) : list string :=
  match s with
  | EmptyString => flush cur []
  | String c r =>
      if p c then scan p (String c cur) r
      else flush cur (scan p EmptyString r)
  end.

(** [s.split()]: the maximal runs of non-whitespace characters. *)
Definition split (s : string) : list string :=
  scan (fun c => negb (is_space c)) EmptyString s.

(** [re.findall(r"\b\w+\b", s)]: at each position the pattern needs a
    word boundary, then takes word characters greedily; the match ends at
    the end of the run, where the closing [\b] holds, and the search
    resumes after it. *)
Definition findall_words (s : string) : list string :=
  scan is_word EmptyString s.

(** [sep.join(parts)] *)
Fixpoint join (sep : string) (parts : list string) : string :=
  match parts with
  | [] => EmptyString
  | [x] => x
  | x :: rest => (x ++ sep ++ join sep rest)%string
  end.

End PyStr.

(* ===================================================================== *)
(** ** Scalars, rows and frames *)
(* ===================================================================== *)

Record Timestamp := mkTimestamp { ts_year : Z; ts_month : Z; ts_day : Z }.

Inductive cell : Type :=
| NaN                       (* missing number or object *)
| NaT                       (* missing datetime *)
| Str (s : string)
| Num (z : Z)
| Time (t : Timestamp).

Definition Series := list cell.

(** [pd.isnull] on a scalar. *)
Definition isnull (c : cell) : bool :=
  match c with NaN | NaT => true | _ => false end.

Definition timestamp_eqb (a b : Timestamp) : bool :=
  (ts_year a =? ts_year b)%Z && (ts_month a =? ts_month b)%Z
  && (ts_day a =? ts_day b)%Z.

(** Elementwise [==]: an absent value is equal to nothing, itself included;
    values of different types are unequal. *)
Definition cell_eqb (a b : cell) : bool :=
  match a, b with
  | Str s, Str t => String.eqb s t
  | Num x, Num y => (x =? y)%Z
  | Time t, Time u => timestamp_eqb t u
  | _, _ => false
  end.

(** Python [a != b] on two scalars. *)
Definition py_ne (a b : cell) : bool := negb (cell_eqb a b).

(** Identity of labels, as the hash tables behind [unique] and
    [value_counts] see it once the absent values are dropped. *)
Definition cell_same (a b : cell) : bool :=
  match a, b with
  | NaN, NaN | NaT, NaT => true
  | _, _ => cell_eqb a b
  end.

Definition Row := list (string * cell).

Fixpoint get (c : string) (r : Row) : cell :=
  match r with
  | [] => NaN
  | (k, v) :: r' => if String.eqb k c then v else get c r'
  end.

Fixpoint set (c : string) (v : cell) (r : Row) : Row :=
  match r with
  | [] => [(c, v)]
  | (k, x) :: r' =>
      if String.eqb k c then (k, v) :: r' else (k, x) :: set c v r'
  end.

Record DataFrame := mkFrame { columns : list string; rows : list Row }.

Definition empty_frame : DataFrame := mkFrame [] [].

(** [c in df.columns] *)
Definition has_column (c : string) (d : DataFrame) : bool :=
  existsb (String.eqb c) (columns d).

(** [len(df)] and [df.shape] *)
Definition len (d : DataFrame) : nat := List.length (rows d).
Definition shape (d : DataFrame) : nat * nat := (len d, List.length (columns d)).

(** [df.head(n)], [n] a row count. *)
Definition head (n : nat) (d : DataFrame) : DataFrame :=
  mkFrame (columns d) (firstn n (rows d)).

(** A Python exception the script does not catch. *)
Inductive result (A : Type) : Type :=
| Ok (a : A)
| KeyError (col : string).
Arguments Ok {A} a.
Arguments KeyError {A} col.

Definition rbind {A B} (r : result A) (k : A -> result B) : result B :=
  match r with
  | Ok a => k a
  | KeyError c => KeyError c
  end.

(** [df[c]] for a column label. *)
Definition getitem (d : DataFrame) (c : string) : result Series :=
  if has_column c d then Ok (map (get c) (rows d)) else KeyError c.

(** [s == v] for a series and a scalar. *)
Definition series_eq (s : Series) (v : cell) : list bool :=
  map (fun x => cell_eqb x v) s.

(** [df[mask]] keeps the rows whose mask entry is [True]. *)
Fixpoint mask_select {A} (mask : list bool) (l : list A) : list A :=
  match mask, l with
  | b :: m, x :: r => if b then x :: mask_select m r else mask_select m r
  | _, _ => []
  end.

Definition getitem_mask (d : DataFrame) (mask : list bool) : DataFrame :=
  mkFrame (columns d) (mask_select mask (rows d)).

(** [df[c] = s]: the column is replaced, or appended when it is new; a
    row the series has no entry for receives [NaN]. *)
Fixpoint assign (c : string) (rs : list Row) (s : Series) : list Row :=
  match rs with
  | [] => []
  | r :: rs' =>
      match s with
      | [] => set c NaN r :: assign c rs' []
      | v :: s' => set c v r :: assign c rs' s'
      end
  end.

Definition setitem (d : DataFrame) (c : string) (s : Series) : DataFrame :=
  mkFrame (if has_column c d then columns d else columns d ++ [c])
          (assign c (rows d) s).

(** [s.dropna()] *)
Definition dropna (s : Series) : Series :=
  filter (fun x => negb (isnull x)) s.

(* ===================================================================== *)
(** ** The store of frame objects *)
(* ===================================================================== *)

Definition ref := nat.
Definition heap := list DataFrame.

Definition deref (h : heap) (r : ref) : DataFrame := nth r h empty_frame.

Fixpoint update (r : ref) (d : DataFrame) (h : heap) : heap :=
  match h, r with
  | [], _ => []
  | _ :: h', O => d :: h'
  | x :: h', S r' => x :: update r' d h'
  end.

Definition M (A : Type) : Type := heap -> result (A * heap).

Definition ret {A} (a : A) : M A := fun h => Ok (a, h).

Definition bind {A B} (m : M A) (k : A -> M B) : M B :=
  fun h =>
    match m h with
    | Ok (a, h') => k a h'
    | KeyError c => KeyError c
    end.

Definition lift {A} (r : result A) : M A :=
  fun h => match r with Ok a => Ok (a, h) | KeyError c => KeyError c end.

Declare Scope store_scope.
Delimit Scope store_scope with store.
Notation "x <- c ;; k" := (bind c (fun x => k))
  (at level 61, c at next level, right associativity) : store_scope.
Notation "c ;;; k" := (bind c (fun _ => k))
  (at level 61, right associativity) : store_scope.
Local Open Scope store_scope.

(** The frame a run ends on. *)
Definition outcome (x : result (ref * heap)) : result DataFrame :=
  match x with
  | Ok (r, h) => Ok (deref h r)
  | KeyError c => KeyError c
  end.

(** A new frame object. *)
Definition alloc (d : DataFrame) : M ref :=
  fun h => Ok (List.length h, h ++ [d]).

(** The frame a reference names. *)
Definition frame (r : ref) : M DataFrame :=
  fun h => Ok (deref h r, h).

(** [df[c]] through a reference. *)
Definition col (r : ref) (c : string) : M Series :=
  d <- frame r ;; lift (getitem d c).

(** [df[c] = s] through a reference: the object is changed in place. *)
Definition set_col (r : ref) (c : string) (s : Series) : M unit :=
  fun h => Ok (tt, update r (setitem (deref h r) c s) h).

(** [df.copy()] *)
Definition copy (r : ref) : M ref :=
  d <- frame r ;; alloc d.

(** [df[mask]] through a reference: a new object. *)
Definition select (r : ref) (mask : list bool) : M ref :=
  d <- frame r ;; alloc (getitem_mask d mask).

(* ===================================================================== *)
(** ** load_data (lines 11-22) *)
(* ===================================================================== *)

Definition string_of_Z (z : Z) : string :=
  NilZero.string_of_int (Z.to_int z).

Definition pad2 (z : Z) : string :=
  if (z <? 10)%Z then ("0" ++ string_of_Z z)%string else string_of_Z z.

(** [str(x)] as [astype(str)] applies it to each element: the absent value
    becomes the text [nan].  Numbers are integers here; none of the texts
    produced for a number or a date contains white space. *)
Definition str_of_cell (c : cell) : string :=
  match c with
  | NaN => "nan"
  | NaT => "NaT"
  | Str s => s
  | Num z => string_of_Z z
  | Time t =>
      (string_of_Z (ts_year t) ++ "-" ++ pad2 (ts_month t) ++ "-"
       ++ pad2 (ts_day t))%string
  end.

Definition astype_str (s : Series) : list string := map str_of_cell s.

(** [s.dt.year] of a datetime series. *)
Definition dt_year (s : Series) : Series :=
  map (fun c => match c with Time t => Num (ts_year t) | _ => NaN end) s.

(** [lambda x: len(x.split())] *)
Definition word_count (x : string) : cell :=
  Num (Z.of_nat (List.length (PyStr.split x))).

Section Loader.

(** pandas' conversion of one present scalar to a timestamp; [None] when
    the value cannot be read as a date. *)
Variable convert : cell -> option Timestamp.

(** [pd.to_datetime(s, errors="coerce")]: what cannot be converted
    becomes [NaT] instead of raising. *)
Definition to_datetime_coerce (s : Series) : Series :=
  map (fun c =>
         if isnull c then NaT
         else match convert c with
              | Some t => Time t
              | None => NaT
              end) s.

(** [csv] is the frame [pd.read_csv(path)] returns. *)
Definition load_data (csv : DataFrame) : M ref :=
  df <- alloc csv ;;
  s <- col df "publish_time" ;;
  set_col df "publish_time" (to_datetime_coerce s) ;;;
  s <- col df "publish_time" ;;
  set_col df "PublicationYear" (dt_year s) ;;;
  s <- col df "abstract" ;;
  set_col df "abstractWordCount" (map word_count (astype_str s)) ;;;
  ret df.

(** The frame [load_data] returns, started in an empty store. *)
Definition loaded (csv : DataFrame) : result DataFrame :=
  outcome (load_data csv []).

End Loader.

(** The calendar-date fragment [YYYY-MM-DD] of the texts pandas reads as a
    date, used to run the loader on concrete tables. *)
Definition digit (c : ascii) : option Z :=
  if PyStr.in_range 48 57 c then Some (Z.of_nat (PyStr.code c) - 48)%Z
  else None.

Fixpoint digits (acc : Z) (s : string) : option Z :=
  match s with
  | EmptyString => Some acc
  | String c r =>
      match digit c with
      | Some d => digits (10 * acc + d)%Z r
      | None => None
      end
  end.

Definition days_in_month (y m : Z) : Z :=
  if (m =? 2)%Z then
    if ((y mod 4 =? 0) && (negb (y mod 100 =? 0) || (y mod 400 =? 0)))%Z
    then 29%Z else 28%Z
  else if ((m =? 4) || (m =? 6) || (m =? 9) || (m =? 11))%Z then 30%Z
  else 31%Z.

Definition iso_date (c : cell) : option Timestamp :=
  match c with
  | Str s =>
      if negb (String.length s =? 10)%nat then None
      else
        match digits 0 (substring 0 4 s), substring 4 1 s,
              digits 0 (substring 5 2 s), substring 7 1 s,
              digits 0 (substring 8 2 s) with
        | Some y, "-", Some m, "-", Some d =>
            if ((1 <=? m) && (m <=? 12) && (1 <=? d)
                && (d <=? days_in_month y m))%Z
            then Some (mkTimestamp y m d) else None
        | _, _, _, _, _ => None
        end
  | _ => None
  end.

(* ===================================================================== *)
(** ** Sorting *)
(* ===================================================================== *)

Fixpoint insert_by {A} (leb : A -> A -> bool) (x : A) (l : list A) : list A :=
  match l with
  | [] => [x]
  | y :: r => if leb x y then x :: l else y :: insert_by leb x r
  end.

(** A stable sort: of two elements neither of which is below the other,
    the one that came first stays first. *)
Definition sort_by {A} (leb : A -> A -> bool) (l : list A) : list A :=
  fold_right (insert_by leb) [] l.

(* ===================================================================== *)
(** ** Tallies: [collections.Counter] and the table behind [value_counts] *)
(* ===================================================================== *)

Section Tally.

Variable K : Type.
Variable same : K -> K -> bool.

(** [t[k] = t.get(k, 0) + 1]: a key keeps the position of its first
    insertion. *)
Fixpoint incr (k : K) (t : list (K * nat)) : list (K * nat) :=
  match t with
  | [] => [(k, 1)]
  | (k', n) :: t' =>
      if same k' k then (k', S n) :: t' else (k', n) :: incr k t'
  end.

Definition tally_from (t : list (K * nat)) (l : list K) : list (K * nat) :=
  fold_left (fun acc k => incr k acc) l t.

Definition tally (l : list K) : list (K * nat) := tally_from [] l.

(** The distinct elements of [l] that are not in [seen], in order of
    first appearance: what [unique()] returns and the order in which a
    dict receives its keys. *)
Fixpoint distinct_from (seen : list K) (l : list K) : list K :=
  match l with
  | [] => []
  | x :: r =>
      if existsb (same x) seen then distinct_from seen r
      else x :: distinct_from (x :: seen) r
  end.

Definition distinct (l : list K) : list K := distinct_from [] l.

(** Larger count first. *)
Definition count_geb (x y : K * nat) : bool := (snd y <=? snd x)%nat.

(** [Counter.most_common(n)] is [sorted(items, key=count, reverse=True)[:n]]:
    the sort is stable, so equal counts keep their insertion order. *)
Definition most_common (n : nat) (t : list (K * nat)) : list (K * nat) :=
  firstn n (sort_by count_geb t).

End Tally.

(* ===================================================================== *)
(** ** Sidebar: select-box options and the filter (lines 32-48) *)
(* ===================================================================== *)

(** [s.unique()] *)
Definition unique (s : Series) : Series := distinct cell_same s.

(** The order [sorted] and [sort_index] use on the labels of one column.
    A column holds labels of one type, so the last case is not met by the
    script (Python refuses to order a text and a number). *)
Definition cell_leb (a b : cell) : bool :=
  match a, b with
  | Num x, Num y => (x <=? y)%Z
  | Str s, Str t => (s <=? t)%string
  | Time t, Time u =>
      match (ts_year t ?= ts_year u)%Z with
      | Lt => true
      | Gt => false
      | Eq => match (ts_month t ?= ts_month u)%Z with
              | Lt => true
              | Gt => false
              | Eq => (ts_day t <=? ts_day u)%Z
              end
      end
  | _, _ => true
  end.

Definition sorted (s : Series) : Series := sort_by cell_leb s.

Definition All : cell := Str "All".

(** [["All"] + years] *)
Definition year_options (d : DataFrame) : result (list cell) :=
  rbind (getitem d "PublicationYear")
        (fun s => Ok (All :: sorted (unique (dropna s)))).

(** [["All"] + list(journal_options)] *)
Definition journal_options (d : DataFrame) : result (list cell) :=
  rbind (getitem d "journal") (fun s => Ok (All :: unique (dropna s))).

(** [["All"] + list(source_options)], the column being probed first. *)
Definition source_options (d : DataFrame) : result (list cell) :=
  if has_column "source_x" d then
    rbind (getitem d "source_x") (fun s => Ok (All :: unique (dropna s)))
  else Ok [All].

(** The values the three select boxes return. *)
Record Selection := mkSelection {
  selected_year : cell;
  selected_journal : cell;
  selected_source : cell
}.

(** One [if selected != "All": filtered_df = filtered_df[...]] statement. *)
Definition narrow (filtered_df : ref) (c : string) (selected : cell) : M ref :=
  if py_ne selected All then
    s <- col filtered_df c ;;
    select filtered_df (series_eq s selected)
  else ret filtered_df.

(** Lines 42-48. *)
Definition apply_filters (df : ref) (sel : Selection) : M ref :=
  filtered_df <- copy df ;;
  filtered_df <- narrow filtered_df "PublicationYear" (selected_year sel) ;;
  filtered_df <- narrow filtered_df "journal" (selected_journal sel) ;;
  filtered_df <- narrow filtered_df "source_x" (selected_source sel) ;;
  ret filtered_df.

(** [filter(R, C)]: the frame [filtered_df] names after lines 42-48 when
    [df] names [R]. *)
Definition filter_frame (R : DataFrame) (C : Selection) : result DataFrame :=
  outcome (apply_filters 0 C [R]).

(** Lines 177-178 with the cut-off as a parameter (the script passes 20). *)
Definition word_frequencies (text : string) (limit : nat) : list (string * nat) :=
  let words := PyStr.findall_words (PyStr.lower text) in
  most_common limit (tally String.eqb words).

(** [df.isnull().sum()] and [missing[missing > 0]] (lines 96-97). *)
Definition isnull_sum (d : DataFrame) : list (string * nat) :=
  map (fun c => (c, List.length (filter isnull (map (get c) (rows d)))))
      (columns d).

Definition missing_values (d : DataFrame) : list (string * nat) :=
  filter (fun p => (0 <? snd p)%nat) (isnull_sum d).

(** [" ".join(df["title"].dropna().astype(str))] (line 145). *)
Definition joined_titles (d : DataFrame) : result string :=
  rbind (getitem d "title")
        (fun s => Ok (PyStr.join " " (astype_str (dropna s)))).

(* ===================================================================== *)
(** ** The views of the six tabs (lines 50-182) *)
(* ===================================================================== *)

Section Dashboard.

(** [Series.sort_values(ascending=False)] on a table of counts.  pandas
    does not fix the order among equal counts, so the routine is left
    open; the theorems say what they need of it. *)
Variable sort_values : list (cell * nat) -> list (cell * nat).

(** [df.dtypes] and [df.describe(include="all")]: library summaries whose
    content (type names, floating-point statistics) is outside the model. *)
Variable DTypes : Type.
Variable dtypes : DataFrame -> DTypes.
Variable Summary : Type.
Variable describe : DataFrame -> Summary.

(** [s.value_counts()]: absent values are dropped, then the tally is
    ordered by count. *)
Definition value_counts (s : Series) : list (cell * nat) :=
  sort_values (tally cell_same (dropna s)).

(** [.sort_index()] on a table of counts. *)
Definition sort_index (t : list (cell * nat)) : list (cell * nat) :=
  sort_by (fun x y => cell_leb (fst x) (fst y)) t.

(** [records[field].value_counts()] *)
Definition valueCounts (records : DataFrame) (field : string)
  : result (list (cell * nat)) :=
  rbind (getitem records field) (fun s => Ok (value_counts s)).

(** [records[field].value_counts().head(n)] *)
Definition topN (records : DataFrame) (field : string) (n : nat)
  : result (list (cell * nat)) :=
  rbind (getitem records field) (fun s => Ok (firstn n (value_counts s))).

Record Views := mkViews {
  showing : nat;                              (* line 50 *)
  download : DataFrame;                       (* line 53 *)
  sample : DataFrame;                         (* line 84 *)
  shape_filtered : nat * nat;                 (* line 91 *)
  data_types : DTypes;                        (* line 93 *)
  missing : list (string * nat);              (* lines 96-99 *)
  statistics : Summary;                       (* line 103 *)
  papers_per_year : list (cell * nat);        (* line 110 *)
  top_journals : list (cell * nat);           (* line 127 *)
  all_titles : string;                        (* line 145 *)
  source_counts : option (list (cell * nat)); (* lines 160-162 *)
  word_counts : list (string * nat)           (* lines 177-178 *)
}.

(** Lines 32-182: [df] names the loaded frame, [sel] is what the three
    select boxes return. *)
Definition dashboard (df : ref) (sel : Selection) : M Views :=
  d <- frame df ;;
  _ <- lift (year_options d) ;;
  _ <- lift (journal_options d) ;;
  _ <- lift (source_options d) ;;
  filtered_df <- apply_filters df sel ;;
  fd <- frame filtered_df ;;
  d <- frame df ;;
  per_year <- lift (valueCounts fd "PublicationYear") ;;
  top <- lift (topN fd "journal" 10) ;;
  titles <- lift (joined_titles fd) ;;
  sources <- (if has_column "source_x" fd
              then c <- lift (valueCounts fd "source_x") ;; ret (Some c)
              else ret None) ;;
  ret {| showing := len fd;
         download := fd;
         sample := head 20 fd;
         shape_filtered := shape fd;
         data_types := dtypes d;
         missing := missing_values d;
         statistics := describe d;
         papers_per_year := sort_index per_year;
         top_journals := top;
         all_titles := titles;
         source_counts := sources;
         word_counts := word_frequencies titles 20 |}.

End Dashboard.

(* ===================================================================== *)
(** ** Notions the statements are phrased with *)
(* ===================================================================== *)

(** [l1] is [l2] with some elements left out, order kept. *)
Inductive Subseq {A : Type} : list A -> list A -> Prop :=
| Subseq_nil : Subseq [] []
| Subseq_keep x l1 l2 : Subseq l1 l2 -> Subseq (x :: l1) (x :: l2)
| Subseq_drop x l1 l2 : Subseq l1 l2 -> Subseq l1 (x :: l2).





(** [x] is ranked before [y]: a larger count, or the same count and an
    earlier arrival. *)
Definition ranked {K} (before : K * nat -> K * nat -> Prop) (x y : K * nat)
  : Prop :=
  snd y < snd x \/ (snd x = snd y /\ before x y).



(** The filter of section 4.2 in the spec's words: one equality criterion,
    and all of a selection's criteria as a conjunction. *)
Definition constrains (v : cell) : bool := py_ne v All.

Definition meets (c : string) (v : cell) (r : Row) : bool :=
  negb (constrains v) || cell_eqb (get c r) v.

Definition matches (C : Selection) (r : Row) : bool :=
  meets "PublicationYear" (selected_year C) r
  && meets "journal" (selected_journal C) r
  && meets "source_x" (selected_source C) r.

(** One criterion applied to a frame. *)
Definition narrow_frame (c : string) (v : cell) (d : DataFrame)
  : result DataFrame :=
  if constrains v && negb (has_column c d) then KeyError c
  else Ok (mkFrame (columns d) (filter (meets c v) (rows d))).

(** The columns a selection reads, in the order the script reads them. *)
Definition required (C : Selection) : list string :=
  (if constrains (selected_year C) then ["PublicationYear"] else [])
  ++ (if constrains (selected_journal C) then ["journal"] else [])
  ++ (if constrains (selected_source C) then ["source_x"] else []).

Definition filter_model (R : DataFrame) (C : Selection) : result DataFrame :=
  match find (fun c => negb (has_column c R)) (required C) with
  | Some c => KeyError c
  | None => Ok (mkFrame (columns R) (filter (matches C) (rows R)))
  end.

(** What [load_data] does to one record. *)
Definition load_row (convert : cell -> option Timestamp) (r : Row) : Row :=
  let t := match to_datetime_coerce convert [get "publish_time" r] with
           | [t] => t
           | _ => NaT
           end in
  let r1 := set "publish_time" t r in
  let y := match dt_year [get "publish_time" r1] with
           | [y] => y
           | _ => NaN
           end in
  let r2 := set "PublicationYear" y r1 in
  set "abstractWordCount" (word_count (str_of_cell (get "abstract" r2))) r2.

(** The [count] row of [describe(include="all")]: the number of present
    values in each column.  It stands for [describe] where a run needs a
    concrete summary. *)
Definition count_row (d : DataFrame) : list (string * nat) :=
  map (fun c => (c, List.length (dropna (map (get c) (rows d))))) (columns d).

(** The views computed from the filtered frame, and those computed from
    the loaded frame. *)
Definition filtered_part {D S} (v : Views D S) :=
  (showing v, download v, sample v, shape_filtered v,
   (papers_per_year v, top_journals v, all_titles v, source_counts v,
    word_counts v)).

Definition dataset_part {D S} (v : Views D S) :=
  (data_types v, missing v, statistics v).

(* ===================================================================== *)
(** ** Sample tables *)
(* ===================================================================== *)

(** Two rows as [pd.read_csv] returns them: the first has no abstract and
    a date that cannot be read, the second has no journal. *)
Definition sample_csv : DataFrame :=
  mkFrame ["title"; "abstract"; "journal"; "publish_time"]
    [ [("title", Str "Masks and COVID-19"); ("abstract", NaN);
       ("journal", Str "Lancet"); ("publish_time", Str "not-a-date")];
      [("title", Str "Vaccine study"); ("abstract", Str "one two  three");
       ("journal", NaN); ("publish_time", Str "2020-02-29")] ].

(** [sample_csv] after [load_data]. *)
Definition sample_df : DataFrame :=
  mkFrame ["title"; "abstract"; "journal"; "publish_time";
           "PublicationYear"; "abstractWordCount"]
    [ [("title", Str "Masks and COVID-19"); ("abstract", NaN);
       ("journal", Str "Lancet"); ("publish_time", NaT);
       ("PublicationYear", NaN); ("abstractWordCount", Num 1)];
      [("title", Str "Vaccine study"); ("abstract", Str "one two  three");
       ("journal", NaN); ("publish_time", Time (mkTimestamp 2020 2 29));
       ("PublicationYear", Num 2020); ("abstractWordCount", Num 3)] ].

(* ===================================================================== *)
(** ** The script as a whole, and the branches of tabs 5 and 6 *)
(* ===================================================================== *)



Section App.

Variable convert : cell -> option Timestamp.
Variable sort_values : list (cell * nat) -> list (cell * nat).
Variable DTypes : Type.
Variable dtypes : DataFrame -> DTypes.
Variable Summary : Type.
Variable describe : DataFrame -> Summary.


End App.

(** A selection made from what the three boxes offer for [d]. *)
Definition offered (d : DataFrame) (sel : Selection) : Prop :=
  (exists ys, year_options d = Ok ys /\ In (selected_year sel) ys)
  /\ (exists js, journal_options d = Ok js /\ In (selected_journal sel) js)
  /\ (exists ss, source_options d = Ok ss /\ In (selected_source sel) ss).

(** [C'] asks no more than [C]: each of its boxes holds the sentinel or
    the value [C] has there. *)
Definition relaxes (C' C : Selection) : Prop :=
  (constrains (selected_year C') = false
   \/ selected_year C' = selected_year C)
  /\ (constrains (selected_journal C') = false
      \/ selected_journal C' = selected_journal C)
  /\ (constrains (selected_source C') = false
      \/ selected_source C' = selected_source C).

(** The column labels after an assignment to [c]: [c] is appended when it
    is new. *)
Definition with_column (c : string) (cols : list string) : list string :=
  if existsb (String.eqb c) cols then cols else cols ++ [c].

(* ===================================================================== *)
(** ** download_data.py *)
(* ===================================================================== *)

(** The files of the working directory, path to content, and what has
    been printed. *)
Record World := mkWorld {
  files : list (string * string);
  stdout : list string
}.

(** [os.path.exists(p)] *)
Definition path_exists (p : string) (w : World) : bool :=
  existsb (fun e => String.eqb (fst e) p) (files w).

Definition print (line : string) (w : World) : World :=
  mkWorld (files w) (stdout w ++ [line]).

Definition url : string :=
  "https://drive.google.com/uc?id=19fOOzkftyl39YKQONCNNqLTYTWdMmPLj".

Definition output : string := "metadata_subset.csv".

Section Download.

(** [gdown.download(url, output, quiet=False)]: the library call, with
    whatever it does to the files. *)
Variable gdown_download : string -> string -> World -> World.

Definition download_data (w : World) : World :=
  if negb (path_exists output w) then
    gdown_download url output
      (print "Downloading dataset from Google Drive..." w)
  else print "Dataset already exists. Skipping download." w.

End Download.

(** A download that succeeds: the file is written with the given content. *)
Definition write_file (content : string) (_ path : string) (w : World) : World :=
  mkWorld ((path, content) :: files w) (stdout w).


(** The values of a column, as [getitem] returns them when the column
    exists. *)
Definition column (c : string) (d : DataFrame) : Series :=
  map (get c) (rows d).

(** [opts] holds each present value of [s] once, and nothing else. *)
Definition lists_values (s : Series) (opts : list cell) : Prop :=
  NoDup opts /\ (forall v, In v opts <-> In v s /\ isnull v = false).


(** Number of records with no value in column [c]. *)
Definition absent_in (c : string) (d : DataFrame) : nat :=
  List.length (filter (fun r => isnull (get c r)) (rows d)).


(** Number of records whose value in column [c] is [v]. *)
Definition records_with (c : string) (v : cell) (d : DataFrame) : nat :=
  List.length (filter (fun r => cell_same v (get c r)) (rows d)).

(** The year a label of the [PublicationYear] column stands for. *)
Definition year_of (e : cell * nat) : Z :=
  match fst e with Num z => z | _ => 0%Z end.


(* ===================================================================== *)
(** * Properties *)
(* ===================================================================== *)

(** ** The model on concrete inputs *)

Example split_runs : PyStr.split "  two   words " = ["two"; "words"].
Proof. reflexivity. Qed.

Example split_nan : PyStr.split (str_of_cell NaN) = ["nan"].
Proof. reflexivity. Qed.

Example findall_runs :
  PyStr.findall_words "covid-19 vaccine_x!" = ["covid"; "19"; "vaccine_x"].
Proof. reflexivity. Qed.

Example iso_date_leap_day :
  iso_date (Str "2020-02-29") = Some (mkTimestamp 2020 2 29)
  /\ iso_date (Str "2021-02-29") = None
  /\ iso_date (Str "not-a-date") = None.
Proof. repeat split. Qed.

Example filter_by_year :
  filter_frame sample_df (mkSelection (Num 2020) All All)
  = Ok (mkFrame (columns sample_df) (skipn 1 (rows sample_df))).
Proof. reflexivity. Qed.

Example filter_by_absent_column :
  filter_frame sample_df (mkSelection All All (Str "PMC")) = KeyError "source_x".
Proof. reflexivity. Qed.

Example most_common_ties :
  most_common 2 (tally String.eqb ["b"; "a"; "c"; "a"; "b"])
  = [("b", 2); ("a", 2)].
Proof. reflexivity. Qed.

(** ** Lists *)

Lemma Subseq_refl {A} (l : list A) : Subseq l l.
Proof. induction l; constructor; assumption. Qed.

Lemma Subseq_filter {A} (p : A -> bool) (l : list A) : Subseq (filter p l) l.
Proof.
  induction l as [|x l IH]; simpl.
  - constructor.
  - destruct (p x); constructor; exact IH.
Qed.

Lemma Subseq_In {A} (l1 l2 : list A) :
  Subseq l1 l2 -> forall x, In x l1 -> In x l2.
Proof.
  induction 1; simpl; intros y Hy; auto.
  destruct Hy; auto.
Qed.

Lemma filter_all {A} (p : A -> bool) (l : list A) :
  Forall (fun x => p x = true) l -> filter p l = l.
Proof.
  induction 1 as [|x l Hx _ IH]; simpl; [reflexivity|].
  rewrite Hx, IH. reflexivity.
Qed.

Lemma filter_Forall {A} (p : A -> bool) (l : list A) :
  Forall (fun x => p x = true) (filter p l).
Proof.
  apply Forall_forall. intros x Hx. apply filter_In in Hx. tauto.
Qed.

Lemma filter_all_false {A} (p : A -> bool) (l : list A) :
  (forall x, In x l -> p x = false) -> filter p l = [].
Proof.
  induction l as [|x l IH]; simpl; intros H; [reflexivity|].
  rewrite (H x (or_introl eq_refl)). apply IH. intros y Hy. apply H. right. exact Hy.
Qed.

Lemma filter_idem {A} (p : A -> bool) (l : list A) :
  filter p (filter p l) = filter p l.
Proof. apply filter_all, filter_Forall. Qed.

Lemma filter_andb {A} (p q : A -> bool) (l : list A) :
  filter q (filter p l) = filter (fun x => p x && q x) l.
Proof.
  induction l as [|x l IH]; simpl; [reflexivity|].
  destruct (p x); simpl; [destruct (q x)|]; rewrite IH; reflexivity.
Qed.

Lemma mask_select_map {A} (f : A -> cell) (v : cell) (l : list A) :
  mask_select (series_eq (map f l) v) l = filter (fun x => cell_eqb (f x) v) l.
Proof.
  unfold series_eq.
  induction l as [|x l IH]; simpl; [reflexivity|].
  rewrite IH. reflexivity.
Qed.

Lemma StronglySorted_weaken {A} (R R' : A -> A -> Prop) (l : list A) :
  (forall a b, In a l -> In b l -> R a b -> R' a b) ->
  StronglySorted R l -> StronglySorted R' l.
Proof.
  intros HR Hs. induction Hs as [|x l Hs IH Hx]; constructor.
  - apply IH. intros a b Ha Hb. apply HR; right; assumption.
  - rewrite Forall_forall in *. intros b Hb.
    apply HR; [left; reflexivity | right; assumption | apply Hx, Hb].
Qed.

Lemma StronglySorted_map {A B} (f : A -> B) (R : B -> B -> Prop) (l : list A) :
  StronglySorted R (map f l) -> StronglySorted (fun x y => R (f x) (f y)) l.
Proof.
  induction l as [|x l IH]; simpl; intros Hs; constructor;
    inversion Hs; subst; auto.
  rewrite Forall_forall in *. intros y Hy. auto using in_map.
Qed.

(** ** The stable insertion sort *)

Section SortFacts.

Variable A : Type.
Variable leb : A -> A -> bool.

Lemma insert_by_perm (x : A) (l : list A) :
  Permutation (insert_by leb x l) (x :: l).
Proof.
  induction l as [|y l IH]; simpl; [reflexivity|].
  destruct (leb x y); [reflexivity|].
  rewrite IH. apply perm_swap.
Qed.

Lemma sort_by_perm (l : list A) : Permutation (sort_by leb l) l.
Proof.
  induction l as [|x l IH]; simpl; [reflexivity|].
  rewrite insert_by_perm. constructor. exact IH.
Qed.

End SortFacts.

Section Ranking.

Variable K : Type.
(** The order the entries arrive in. *)
Variable before : K * nat -> K * nat -> Prop.

Lemma insert_ranked (x : K * nat) (s : list (K * nat)) :
  StronglySorted (ranked before) s -> Forall (before x) s ->
  StronglySorted (ranked before) (insert_by (@count_geb K) x s).
Proof.
  induction s as [|y s IH]; simpl; intros Hs Hb.
  - repeat constructor.
  - inversion Hs as [|? ? Hs' Hy]; subst.
    inversion Hb as [|? ? Hxy Hb']; subst.
    unfold count_geb at 1.
    destruct (Nat.leb_spec (snd y) (snd x)) as [Hle|Hlt].
    + constructor; [assumption|].
      constructor.
      * unfold ranked. destruct (Nat.eq_dec (snd x) (snd y)); [right|left]; auto.
        lia.
      * rewrite Forall_forall in *. intros z Hz.
        specialize (Hy z Hz). specialize (Hb' z Hz). unfold ranked in *.
        destruct Hy as [Hy|[Hy _]];
          destruct (Nat.eq_dec (snd x) (snd z)); auto; left; lia.
    + constructor; [apply IH; assumption|].
      eapply Permutation_Forall.
      * symmetry. apply insert_by_perm.
      * constructor; [left; exact Hlt | exact Hy].
Qed.

Lemma sort_ranked (l : list (K * nat)) :
  StronglySorted before l ->
  StronglySorted (ranked before) (sort_by (@count_geb K) l).
Proof.
  induction 1 as [|x l Hs IH Hx]; simpl; [constructor|].
  apply insert_ranked; [exact IH|].
  eapply Permutation_Forall; [symmetry; apply sort_by_perm | exact Hx].
Qed.

End Ranking.

(** ** Tallies *)

Section TallyFacts.

Variable K : Type.
Variable same : K -> K -> bool.
Hypothesis same_spec : forall a b, same a b = true <-> a = b.

Lemma same_refl (a : K) : same a a = true.
Proof. apply same_spec. reflexivity. Qed.

Lemma same_sym (a b : K) : same a b = same b a.
Proof.
  destruct (same a b) eqn:E1, (same b a) eqn:E2; try reflexivity.
  - apply same_spec in E1. subst. rewrite same_refl in E2. discriminate.
  - apply same_spec in E2. subst. rewrite same_refl in E1. discriminate.
Qed.

Lemma existsb_same (x : K) (l : list K) :
  existsb (same x) l = true <-> In x l.
Proof.
  rewrite existsb_exists. split.
  - intros [y [Hy E]]. apply same_spec in E. subst. exact Hy.
  - intros H. exists x. split; [exact H | apply same_refl].
Qed.

Lemma existsb_same_false (x : K) (l : list K) :
  existsb (same x) l = false <-> ~ In x l.
Proof.
  rewrite <- existsb_same. destruct (existsb (same x) l); split; intros H.
  - discriminate.
  - exfalso. apply H. reflexivity.
  - intros H0. discriminate.
  - reflexivity.
Qed.

(** *** The distinct elements *)

Lemma distinct_from_ext (l s1 s2 : list K) :
  (forall y, In y s1 <-> In y s2) ->
  distinct_from same s1 l = distinct_from same s2 l.
Proof.
  revert s1 s2. induction l as [|x l IH]; simpl; intros s1 s2 H; [reflexivity|].
  assert (E : existsb (same x) s1 = existsb (same x) s2).
  { destruct (existsb (same x) s2) eqn:E2.
    - apply existsb_same, H, existsb_same, E2.
    - apply existsb_same_false. rewrite H. apply existsb_same_false, E2. }
  rewrite E. destruct (existsb (same x) s2).
  - apply IH, H.
  - f_equal. apply IH. intros y. simpl. rewrite H. tauto.
Qed.

Lemma distinct_from_In (l seen : list K) (x : K) :
  In x (distinct_from same seen l) <-> In x l /\ ~ In x seen.
Proof.
  revert seen. induction l as [|y l IH]; simpl; intros seen; [tauto|].
  destruct (existsb (same y) seen) eqn:E.
  - rewrite IH. apply existsb_same in E. split.
    + tauto.
    + intros [[->|H] Hn]; tauto.
  - apply existsb_same_false in E. simpl. rewrite IH. simpl. split.
    + intros [->|[H Hn]]; tauto.
    + intros [[->|H] Hn]; [tauto|].
      destruct (same y x) eqn:Eyx.
      * apply same_spec in Eyx. tauto.
      * right. split; [exact H|]. intros [->|Hs]; [|tauto].
        rewrite same_refl in Eyx. discriminate.
Qed.

Lemma distinct_from_NoDup (l seen : list K) :
  NoDup (distinct_from same seen l).
Proof.
  revert seen. induction l as [|y l IH]; simpl; intros seen; [constructor|].
  destruct (existsb (same y) seen); [apply IH|].
  constructor; [|apply IH].
  rewrite distinct_from_In. simpl. tauto.
Qed.

(** *** Keys *)

Lemma keys_incr (k : K) (t : list (K * nat)) :
  map fst (incr same k t) =
  if existsb (same k) (map fst t) then map fst t else map fst t ++ [k].
Proof.
  induction t as [|[k' n] t IH]; simpl; [reflexivity|].
  rewrite (same_sym k k'). destruct (same k' k); simpl; [reflexivity|].
  rewrite IH. destruct (existsb (same k) (map fst t)); reflexivity.
Qed.

Lemma keys_tally_from (l : list K) (t : list (K * nat)) :
  map fst (tally_from same t l) =
  map fst t ++ distinct_from same (map fst t) l.
Proof.
  unfold tally_from. revert t.
  induction l as [|x l IH]; simpl; intros t.
  - rewrite app_nil_r. reflexivity.
  - rewrite IH, keys_incr.
    destruct (existsb (same x) (map fst t)); [reflexivity|].
    rewrite <- app_assoc. simpl. do 2 f_equal.
    apply distinct_from_ext. intros y. rewrite in_app_iff. simpl. tauto.
Qed.

Lemma keys_tally (l : list K) :
  map fst (tally same l) = distinct same l.
Proof. apply (keys_tally_from l []). Qed.

Lemma tally_keys_NoDup (l : list K) : NoDup (map fst (tally same l)).
Proof. rewrite keys_tally. apply distinct_from_NoDup. Qed.

Lemma tally_key_In (l : list K) (k : K) :
  In k (map fst (tally same l)) <-> In k l.
Proof.
  rewrite keys_tally. unfold distinct. rewrite distinct_from_In. simpl. tauto.
Qed.


(** *** Counts *)

(** The total the table holds for a key. *)
Lemma total_incr (k : K) (t : list (K * nat)) :
  list_sum (map snd (incr same k t)) = S (list_sum (map snd t)).
Proof.
  induction t as [|[k' n] t IH]; simpl; [reflexivity|].
  destruct (same k' k); simpl; [reflexivity|]. rewrite IH. lia.
Qed.

Lemma total_tally_from (l : list K) (t : list (K * nat)) :
  list_sum (map snd (tally_from same t l)) =
  list_sum (map snd t) + List.length l.
Proof.
  unfold tally_from. revert t.
  induction l as [|x l IH]; simpl; intros t; [lia|].
  rewrite IH, total_incr. lia.
Qed.

Lemma total_tally (l : list K) :
  list_sum (map snd (tally same l)) = List.length l.
Proof. apply (total_tally_from l []). Qed.

Lemma weight_incr (x k : K) (t : list (K * nat)) :
  list_sum (map snd (filter (fun e => same (fst e) k) (incr same x t))) =
  list_sum (map snd (filter (fun e => same (fst e) k) t))
  + (if same x k then 1 else 0).
Proof.
  induction t as [|[k' n] t IH]; simpl.
  - destruct (same x k); reflexivity.
  - destruct (same k' x) eqn:E; simpl.
    + apply same_spec in E. subst k'.
      destruct (same x k); simpl; lia.
    + destruct (same k' k); simpl; rewrite IH; lia.
Qed.

Lemma weight_tally_from (l : list K) (k : K) (t : list (K * nat)) :
  list_sum (map snd (filter (fun e => same (fst e) k) (tally_from same t l))) =
  list_sum (map snd (filter (fun e => same (fst e) k) t))
  + List.length (filter (same k) l).
Proof.
  unfold tally_from. revert t.
  induction l as [|x l IH]; simpl; intros t; [lia|].
  rewrite IH, weight_incr, (same_sym k x).
  destruct (same x k); simpl; lia.
Qed.

Lemma weight_entry (t : list (K * nat)) (k : K) (n : nat) :
  NoDup (map fst t) -> In (k, n) t ->
  list_sum (map snd (filter (fun e => same (fst e) k) t)) = n.
Proof.
  induction t as [|[k' m] t IH]; simpl; intros Hnd Hin; [tauto|].
  inversion Hnd as [|? ? Hk Hnd']; subst.
  destruct Hin as [E|Hin].
  - inversion E; subst. rewrite same_refl. simpl.
    rewrite filter_all_false; [simpl; lia|].
    intros [k2 m2] H2. simpl.
    destruct (same k2 k) eqn:E2; [|reflexivity].
    apply same_spec in E2. subst. exfalso. apply Hk.
    change k with (fst (k, m2)). apply in_map, H2.
  - destruct (same k' k) eqn:E.
    + apply same_spec in E. subst. exfalso. apply Hk.
      change k with (fst (k, n)). apply in_map, Hin.
    + apply IH; assumption.
Qed.

Lemma tally_entry (l : list K) (k : K) (n : nat) :
  In (k, n) (tally same l) <->
  0 < n /\ n = List.length (filter (same k) l).
Proof.
  split.
  - intros Hin.
    assert (Hn : n = List.length (filter (same k) l)).
    { rewrite <- (@weight_entry (tally same l) k n (tally_keys_NoDup l) Hin).
      unfold tally. rewrite weight_tally_from. reflexivity. }
    split; [|exact Hn].
    assert (Hk : In k l).
    { apply tally_key_In. change k with (fst (k, n)). apply in_map, Hin. }
    rewrite Hn. destruct (filter (same k) l) eqn:E; simpl; [|lia].
    exfalso. assert (H : In k (filter (same k) l)).
    { apply filter_In. split; [exact Hk | apply same_refl]. }
    rewrite E in H. exact H.
  - intros [Hpos Hn].
    assert (Hk : In k (map fst (tally same l))).
    { apply tally_key_In. destruct (filter (same k) l) as [|y r] eqn:E.
      - simpl in Hn. lia.
      - assert (H : In y (filter (same k) l)) by (rewrite E; left; reflexivity).
        apply filter_In in H. destruct H as [H1 H2].
        apply same_spec in H2. subst. exact H1. }
    apply in_map_iff in Hk. destruct Hk as [[k' m] [E Hin]]. simpl in E. subst k'.
    assert (Hm : m = List.length (filter (same k) l)).
    { rewrite <- (@weight_entry (tally same l) k m (tally_keys_NoDup l) Hin).
      unfold tally. rewrite weight_tally_from. reflexivity. }
    rewrite Hn, <- Hm. exact Hin.
Qed.

End TallyFacts.

(** ** The scanner behind [split] and [findall] *)

Section Scanner.

Variable p : ascii -> bool.







End Scanner.




(** ** First appearance *)




(** ** Word frequencies (lines 177-178) *)




(** ** Rows and column assignment *)

Lemma get_set_same (c : string) (v : cell) (r : Row) : get c (set c v r) = v.
Proof.
  induction r as [|[k x] r IH]; simpl.
  - rewrite String.eqb_refl. reflexivity.
  - destruct (String.eqb k c) eqn:E; simpl; rewrite E; [reflexivity | exact IH].
Qed.

Lemma get_set_other (c c' : string) (v : cell) (r : Row) :
  c <> c' -> get c (set c' v r) = get c r.
Proof.
  intros Hne. induction r as [|[k x] r IH]; simpl.
  - destruct (String.eqb_spec c' c); [congruence | reflexivity].
  - destruct (String.eqb_spec k c') as [->|Hk]; simpl.
    + destruct (String.eqb_spec c' c); [congruence | reflexivity].
    + rewrite IH. reflexivity.
Qed.

Lemma assign_map (c : string) (g : Row -> cell) (rs : list Row) :
  assign c rs (map g rs) = map (fun r => set c (g r) r) rs.
Proof.
  induction rs as [|r rs IH]; simpl; [reflexivity|]. rewrite IH. reflexivity.
Qed.

Lemma has_column_setitem (c c' : string) (d : DataFrame) (s : Series) :
  has_column c (setitem d c' s) = has_column c d || String.eqb c c'.
Proof.
  unfold setitem.
  destruct (has_column c' d) eqn:E; unfold has_column in *; simpl columns.
  - destruct (String.eqb_spec c c') as [->|];
      [rewrite E | rewrite orb_false_r]; reflexivity.
  - rewrite existsb_app. simpl. rewrite orb_false_r. reflexivity.
Qed.

(** ** load_data *)

Arguments has_column : simpl never.
Arguments setitem : simpl never.

Section LoaderFacts.

Variable convert : cell -> option Timestamp.

Lemma loaded_frame (csv : DataFrame) :
  has_column "publish_time" csv = true ->
  has_column "abstract" csv = true ->
  exists cols,
    loaded convert csv = Ok (mkFrame cols (map (load_row convert) (rows csv))).
Proof.
  intros Hp Ha.
  unfold loaded, load_data, alloc, col, frame, lift, set_col, ret,
    getitem, outcome, deref, bind.
  simpl. rewrite Hp. simpl.
  rewrite has_column_setitem, Hp. simpl.
  rewrite !has_column_setitem, Ha. simpl.
  eexists. f_equal. unfold setitem at 1. f_equal.
  unfold to_datetime_coerce, dt_year, astype_str, setitem. simpl rows.
  rewrite ?map_map. rewrite assign_map.
  rewrite ?map_map. rewrite assign_map.
  rewrite ?map_map. rewrite assign_map.
  rewrite ?map_map. apply map_ext. intros r. reflexivity.
Qed.

Lemma loaded_error (csv : DataFrame) :
  (has_column "publish_time" csv = false ->
   loaded convert csv = KeyError "publish_time")
  /\ (has_column "publish_time" csv = true ->
      has_column "abstract" csv = false ->
      loaded convert csv = KeyError "abstract").
Proof.
  unfold loaded, load_data, alloc, col, frame, lift, set_col, ret,
    getitem, outcome, deref, bind.
  split.
  - intros Hp. simpl. rewrite Hp. reflexivity.
  - intros Hp Ha. simpl. rewrite Hp. simpl.
    rewrite has_column_setitem, Hp. simpl.
    rewrite !has_column_setitem, Ha. reflexivity.
Qed.

Lemma load_row_publish_time (r : Row) :
  get "publish_time" (load_row convert r) =
  if isnull (get "publish_time" r) then NaT
  else match convert (get "publish_time" r) with
       | Some t => Time t
       | None => NaT
       end.
Proof.
  unfold load_row. simpl.
  rewrite !get_set_other by discriminate. apply get_set_same.
Qed.

Lemma load_row_year (r : Row) :
  get "PublicationYear" (load_row convert r) =
  match get "publish_time" (load_row convert r) with
  | Time t => Num (ts_year t)
  | _ => NaN
  end.
Proof.
  rewrite load_row_publish_time. unfold load_row. simpl.
  rewrite get_set_other by discriminate.
  rewrite !get_set_same. reflexivity.
Qed.

Lemma load_row_word_count (r : Row) :
  get "abstractWordCount" (load_row convert r) =
  word_count (str_of_cell (get "abstract" r)).
Proof.
  unfold load_row. simpl. rewrite get_set_same.
  rewrite !get_set_other by discriminate. reflexivity.
Qed.

Lemma load_row_other (c : string) (r : Row) :
  c <> "publish_time" -> c <> "PublicationYear" -> c <> "abstractWordCount" ->
  get c (load_row convert r) = get c r.
Proof.
  intros H1 H2 H3. unfold load_row. simpl.
  rewrite !get_set_other by assumption. reflexivity.
Qed.

(** A record without an abstract is given the word count of the text
    [nan]. *)
Lemma load_row_absent_abstract (r : Row) :
  get "abstract" r = NaN ->
  get "abstractWordCount" (load_row convert r) = Num 1.
Proof. intros H. rewrite load_row_word_count, H. reflexivity. Qed.

End LoaderFacts.

(** C7. When the table has the columns [load_data] reads, loading returns
    a frame with as many records as the table; a record whose
    [publish_time] cannot be converted has [NaT] in [publish_time] and
    [NaN] in [PublicationYear], keeps every other column of the table, and
    every record of the result is computed from its own row alone. *)
Theorem unparseable_date_becomes_absent :
  forall (convert : cell -> option Timestamp) (csv : DataFrame),
    has_column "publish_time" csv = true ->
    has_column "abstract" csv = true ->
    exists d,
      loaded convert csv = Ok d /\
      len d = len csv /\
      (forall i r, nth_error (rows csv) i = Some r ->
                   nth_error (rows d) i = Some (load_row convert r)) /\
      (forall i r,
          nth_error (rows csv) i = Some r ->
          convert (get "publish_time" r) = None ->
          exists r',
            nth_error (rows d) i = Some r' /\
            get "publish_time" r' = NaT /\
            get "PublicationYear" r' = NaN /\
            (forall c, c <> "publish_time" -> c <> "PublicationYear" ->
                       c <> "abstractWordCount" -> get c r' = get c r)).
Proof.
  intros convert csv Hp Ha.
  destruct (loaded_frame convert csv Hp Ha) as [cols E].
  eexists. split; [exact E|]. simpl.
  assert (Hnth : forall i r, nth_error (rows csv) i = Some r ->
             nth_error (map (load_row convert) (rows csv)) i
             = Some (load_row convert r)).
  { intros i r H. rewrite nth_error_map, H. reflexivity. }
  split; [unfold len; simpl; apply length_map|]. split; [exact Hnth|].
  intros i r Hr Hc. exists (load_row convert r).
  assert (Ht : get "publish_time" (load_row convert r) = NaT).
  { rewrite load_row_publish_time, Hc.
    destruct (isnull (get "publish_time" r)); reflexivity. }
  split; [apply Hnth, Hr|]. split; [exact Ht|]. split.
  - rewrite load_row_year, Ht. reflexivity.
  - intros c. apply load_row_other.
Qed.

Lemma unparseable_date_becomes_absent_witness :
  iso_date (Str "not-a-date") = None /\
  exists d r',
    loaded iso_date sample_csv = Ok d /\
    nth_error (rows d) 0 = Some r' /\
    get "publish_time" r' = NaT /\
    get "PublicationYear" r' = NaN /\
    get "title" r' = Str "Masks and COVID-19".
Proof.
  split; [reflexivity|].
  destruct (unparseable_date_becomes_absent iso_date sample_csv
              eq_refl eq_refl) as [d [E [_ [_ H]]]].
  destruct (H 0 _ eq_refl eq_refl) as [r' [H0 [H1 [H2 H3]]]].
  exists d, r'. repeat split; try assumption.
  rewrite H3 by discriminate. reflexivity.
Defined.

(** C1 (the code departs from it). A record with no abstract does not get
    the word count zero: [astype(str)] turns the absent value into the
    text [nan], which [split] counts as one word.  On [sample_csv], whose
    first record has no abstract, [load_data] returns [sample_df], with
    [abstractWordCount] 1 in that record. *)
Theorem absent_abstract_counts_one_word :
  loaded iso_date sample_csv = Ok sample_df
  /\ rbind (loaded iso_date sample_csv)
           (fun d => getitem d "abstractWordCount") = Ok [Num 1; Num 3]
  /\ word_count (str_of_cell NaN) = Num 1.
Proof. repeat split. Qed.

(** Whatever the converter and the table, a record whose abstract is
    absent is loaded with the word count 1. *)
Lemma absent_abstract_word_count
      (convert : cell -> option Timestamp) (csv d : DataFrame) :
  loaded convert csv = Ok d ->
  forall i r, nth_error (rows csv) i = Some r -> get "abstract" r = NaN ->
  exists r', nth_error (rows d) i = Some r'
             /\ get "abstractWordCount" r' = Num 1.
Proof.
  intros E i r Hr Hab.
  destruct (has_column "publish_time" csv) eqn:Hp.
  - destruct (has_column "abstract" csv) eqn:Ha.
    + destruct (loaded_frame convert csv Hp Ha) as [cols E'].
      rewrite E in E'. inversion E'; subst d. simpl.
      exists (load_row convert r). split.
      * rewrite nth_error_map, Hr. reflexivity.
      * apply load_row_absent_abstract, Hab.
    + rewrite (proj2 (loaded_error convert csv) Hp Ha) in E. discriminate.
  - rewrite (proj1 (loaded_error convert csv) Hp) in E. discriminate.
Qed.

(** ** The store *)

Lemma bind_ok {A B} (m : M A) (k : A -> M B) (h h' : heap) (a : A) :
  m h = Ok (a, h') -> bind m k h = k a h'.
Proof. intros E. unfold bind. rewrite E. reflexivity. Qed.

Lemma bind_err {A B} (m : M A) (k : A -> M B) (h : heap) (c : string) :
  m h = KeyError c -> bind m k h = KeyError c.
Proof. intros E. unfold bind. rewrite E. reflexivity. Qed.

Lemma deref_old (h news : heap) (r : ref) :
  r < List.length h -> deref (h ++ news) r = deref h r.
Proof. intros H. unfold deref. apply app_nth1, H. Qed.

Lemma deref_new (h : heap) (d : DataFrame) :
  deref (h ++ [d]) (List.length h) = d.
Proof. unfold deref. rewrite nth_middle. reflexivity. Qed.

Lemma frame_eta (d : DataFrame) : mkFrame (columns d) (rows d) = d.
Proof. destruct d; reflexivity. Qed.

Lemma filter_true {A} (l : list A) : filter (fun _ => true) l = l.
Proof. apply filter_all, Forall_forall. reflexivity. Qed.

(** ** The filter (lines 42-48) *)

Lemma narrow_run (r : ref) (c : string) (v : cell) (h : heap) :
  r < List.length h ->
  match narrow_frame c v (deref h r) with
  | KeyError k => narrow r c v h = KeyError k
  | Ok d' =>
      exists r' news,
        narrow r c v h = Ok (r', h ++ news)
        /\ r' < List.length (h ++ news) /\ r <= r'
        /\ deref (h ++ news) r' = d'
  end.
Proof.
  intros Hr. unfold narrow_frame, narrow, meets, constrains.
  destruct (py_ne v All); simpl.
  - unfold col, select, frame, lift, getitem, alloc, bind.
    destruct (has_column c (deref h r)); simpl; [|reflexivity].
    exists (List.length h), [getitem_mask (deref h r)
                               (series_eq (map (get c) (rows (deref h r))) v)].
    split; [reflexivity|]. rewrite length_app. simpl.
    split; [lia|]. split; [lia|].
    rewrite deref_new. unfold getitem_mask. rewrite mask_select_map. reflexivity.
  - exists r, []. rewrite app_nil_r. split; [reflexivity|].
    split; [exact Hr|]. split; [lia|].
    rewrite filter_true. symmetry. apply frame_eta.
Qed.

Lemma has_column_rows (c : string) (d : DataFrame) (l : list Row) :
  has_column c (mkFrame (columns d) l) = has_column c d.
Proof. reflexivity. Qed.

Lemma filter_model_steps (d : DataFrame) (C : Selection) :
  filter_model d C =
  rbind (narrow_frame "PublicationYear" (selected_year C) d) (fun d1 =>
  rbind (narrow_frame "journal" (selected_journal C) d1) (fun d2 =>
  narrow_frame "source_x" (selected_source C) d2)).
Proof.
  unfold filter_model, required, narrow_frame, matches.
  destruct (constrains (selected_year C)) eqn:Ey;
    destruct (constrains (selected_journal C)) eqn:Ej;
    destruct (constrains (selected_source C)) eqn:Es;
    simpl;
    repeat (rewrite ?has_column_rows;
            match goal with
            | |- context [has_column ?c d] => destruct (has_column c d); simpl
            end);
    rewrite ?filter_andb, ?filter_true; try reflexivity;
    (apply f_equal, f_equal, filter_ext; intros r;
     rewrite ?andb_assoc, ?andb_true_r; reflexivity).
Qed.

Lemma apply_filters_run (h : heap) (df : ref) (C : Selection) :
  df < List.length h ->
  match filter_model (deref h df) C with
  | KeyError k => apply_filters df C h = KeyError k
  | Ok d' =>
      exists r' news,
        apply_filters df C h = Ok (r', h ++ news)
        /\ r' < List.length (h ++ news) /\ List.length h <= r'
        /\ deref (h ++ news) r' = d'
  end.
Proof.
  intros Hdf. rewrite filter_model_steps. unfold apply_filters.
  assert (E0 : copy df h = Ok (List.length h, h ++ [deref h df])) by reflexivity.
  rewrite (@bind_ok _ _ _ _ _ _ _ E0).
  assert (H0 : List.length h < List.length (h ++ [deref h df])).
  { rewrite length_app. simpl. lia. }
  pose proof (@narrow_run (List.length h) "PublicationYear" (selected_year C)
                          _ H0) as N1.
  rewrite deref_new in N1.
  destruct (narrow_frame "PublicationYear" (selected_year C) (deref h df))
    as [d1|k]; simpl rbind; [|rewrite (@bind_err _ _ _ _ _ _ N1); reflexivity].
  destruct N1 as [r1 [n1 [E1 [L1 [M1 D1]]]]]. rewrite (@bind_ok _ _ _ _ _ _ _ E1).
  pose proof (@narrow_run r1 "journal" (selected_journal C) _ L1) as N2.
  rewrite D1 in N2.
  destruct (narrow_frame "journal" (selected_journal C) d1)
    as [d2|k]; simpl rbind; [|rewrite (@bind_err _ _ _ _ _ _ N2); reflexivity].
  destruct N2 as [r2 [n2 [E2 [L2 [M2 D2]]]]]. rewrite (@bind_ok _ _ _ _ _ _ _ E2).
  pose proof (@narrow_run r2 "source_x" (selected_source C) _ L2) as N3.
  rewrite D2 in N3.
  destruct (narrow_frame "source_x" (selected_source C) d2)
    as [d3|k]; simpl rbind; [|rewrite (@bind_err _ _ _ _ _ _ N3); reflexivity].
  destruct N3 as [r3 [n3 [E3 [L3 [M3 D3]]]]]. rewrite (@bind_ok _ _ _ _ _ _ _ E3).
  exists r3, ([deref h df] ++ n1 ++ n2 ++ n3).
  replace (h ++ [deref h df] ++ n1 ++ n2 ++ n3)
    with (((h ++ [deref h df]) ++ n1) ++ n2 ++ n3)
    by (rewrite <- !app_assoc; reflexivity).
  rewrite app_assoc.
  split; [reflexivity|]. split; [exact L3|]. split; [lia | exact D3].
Qed.

Lemma apply_filters_outcome (h : heap) (df : ref) (C : Selection) :
  df < List.length h ->
  outcome (apply_filters df C h) = filter_model (deref h df) C.
Proof.
  intros Hdf. pose proof (apply_filters_run h C Hdf) as H.
  destruct (filter_model (deref h df) C) as [d'|k].
  - destruct H as [r' [news [E [_ [_ D]]]]]. rewrite E. simpl. rewrite D.
    reflexivity.
  - rewrite H. reflexivity.
Qed.

Lemma filter_frame_model (R : DataFrame) (C : Selection) :
  filter_frame R C = filter_model R C.
Proof.
  unfold filter_frame.
  rewrite apply_filters_outcome by (simpl; lia). reflexivity.
Qed.

Lemma filter_model_columns (R R' : DataFrame) (C : Selection) :
  filter_model R C = Ok R' ->
  columns R' = columns R /\ rows R' = filter (matches C) (rows R).
Proof.
  unfold filter_model.
  destruct (find _ (required C)); intros E; inversion E. simpl. auto.
Qed.

Lemma filter_model_idem (R : DataFrame) (C : Selection) :
  rbind (filter_model R C) (fun R' => filter_model R' C) = filter_model R C.
Proof.
  unfold filter_model at 1 3.
  destruct (find (fun c => negb (has_column c R)) (required C)) eqn:E;
    simpl; [reflexivity|].
  unfold filter_model. simpl.
  replace (find _ (required C)) with (@None string).
  rewrite filter_idem. reflexivity.
Qed.

Lemma filter_model_defined (R : DataFrame) (C : Selection) :
  (forall c, In c (required C) -> has_column c R = true) ->
  filter_model R C = Ok (mkFrame (columns R) (filter (matches C) (rows R))).
Proof.
  intros H. unfold filter_model.
  destruct (find (fun c => negb (has_column c R)) (required C)) eqn:E;
    [|reflexivity].
  apply find_some in E. destruct E as [Hin Hc].
  rewrite (H _ Hin) in Hc. discriminate.
Qed.

Lemma narrow_frame_sentinel (c : string) (d : DataFrame) :
  narrow_frame c All d = Ok d.
Proof.
  unfold narrow_frame. simpl. rewrite filter_true, frame_eta. reflexivity.
Qed.

(** Lines 43-48 do not probe the column: a value other than the sentinel
    for a column the frame lacks raises [KeyError]. *)
Lemma narrow_missing_column (r : ref) (c : string) (v : cell) (h : heap) :
  constrains v = true -> has_column c (deref h r) = false ->
  narrow r c v h = KeyError c.
Proof.
  intros Hv Hc. unfold narrow. unfold constrains in Hv. rewrite Hv.
  unfold col, frame, lift, getitem, bind. rewrite Hc. reflexivity.
Qed.

(** C4. Filtering a filtered frame again with the same selection returns
    the same frame; when the first pass raises, so does the composition,
    with the same error. *)
Theorem filter_idempotent :
  forall (R : DataFrame) (C : Selection),
    rbind (filter_frame R C) (fun R' => filter_frame R' C) = filter_frame R C.
Proof.
  intros R C. rewrite filter_frame_model.
  destruct (filter_model R C) as [R'|k] eqn:E; simpl; [|reflexivity].
  rewrite filter_frame_model.
  pose proof (filter_model_idem R C) as H. rewrite E in H. exact H.
Qed.

(** C10. The frame the filter returns has the columns of [R] and its rows
    are a subsequence of the rows of [R]: each is a row of [R], in the
    order of [R].  The filter returns a frame whenever [R] has the columns
    the selection constrains, and with the sentinel in all three boxes it
    returns [R] itself. *)
Theorem filter_subsequence :
  forall (R : DataFrame) (C : Selection),
    (forall R', filter_frame R C = Ok R' ->
                columns R' = columns R
                /\ Subseq (rows R') (rows R)
                /\ (forall r, In r (rows R') -> In r (rows R)))
    /\ ((forall c, In c (required C) -> has_column c R = true) ->
        exists R', filter_frame R C = Ok R')
    /\ filter_frame R (mkSelection All All All) = Ok R.
Proof.
  intros R C. split; [|split].
  - intros R' E. rewrite filter_frame_model in E.
    apply filter_model_columns in E. destruct E as [Hc Hr].
    split; [exact Hc|]. rewrite Hr. split; [apply Subseq_filter|].
    intros r Hin. apply filter_In in Hin. tauto.
  - intros H. eexists. rewrite filter_frame_model.
    apply filter_model_defined, H.
  - rewrite filter_frame_model, filter_model_steps.
    cbn [selected_year selected_journal selected_source].
    rewrite narrow_frame_sentinel. cbn [rbind].
    rewrite narrow_frame_sentinel. cbn [rbind].
    apply narrow_frame_sentinel.
Qed.

Lemma filter_subsequence_witness :
  exists R',
    filter_frame sample_df (mkSelection All (Str "Lancet") All) = Ok R'
    /\ Subseq (rows R') (rows sample_df).
Proof.
  pose (C := mkSelection All (Str "Lancet") All).
  destruct (filter_subsequence sample_df C) as [H1 [H2 _]].
  assert (Hreq : forall c, In c (required C) -> has_column c sample_df = true).
  { intros c [<-|[]]. reflexivity. }
  destruct (H2 Hreq) as [R' E].
  exists R'. split; [exact E|]. apply (H1 R' E).
Defined.

(** C8. Lines 42-48 only add objects to the store: every frame that
    existed before, the one [df] names included, is the same afterwards,
    and [filtered_df] names a new object.  The frame obtained depends only
    on the frame [df] names and on the selection, and running the lines a
    second time gives an equal frame and still leaves [df] as it was. *)
Theorem filter_leaves_input_unchanged :
  forall (h : heap) (df : ref) (C : Selection),
    df < List.length h ->
    (forall filtered_df h',
        apply_filters df C h = Ok (filtered_df, h') ->
        (exists news, h' = h ++ news)
        /\ (forall r, r < List.length h -> deref h' r = deref h r)
        /\ List.length h <= filtered_df)
    /\ (forall h2 df2,
           df2 < List.length h2 -> deref h2 df2 = deref h df ->
           outcome (apply_filters df2 C h2) = outcome (apply_filters df C h))
    /\ (forall r1 h1,
           apply_filters df C h = Ok (r1, h1) ->
           exists r2 h2,
             apply_filters df C h1 = Ok (r2, h2)
             /\ deref h2 r2 = deref h1 r1
             /\ deref h2 df = deref h df).
Proof.
  intros h df C Hdf.
  assert (Hfresh : forall r' h',
             apply_filters df C h = Ok (r', h') ->
             exists news, h' = h ++ news /\ List.length h <= r'
                          /\ filter_model (deref h df) C = Ok (deref h' r')).
  { intros r' h' E. pose proof (apply_filters_run h C Hdf) as H.
    destruct (filter_model (deref h df) C) as [d'|k].
    - destruct H as [r0 [news [E0 [_ [L D]]]]]. rewrite E in E0.
      inversion E0 as [[Er Eh]]. rewrite <- Er, Eh in *.
      exists news. rewrite D. auto.
    - rewrite E in H. discriminate. }
  split; [|split].
  - intros r' h' E. destruct (Hfresh r' h' E) as [news [-> [L _]]].
    split; [exists news; reflexivity|]. split; [|exact L].
    intros r Hr. apply deref_old, Hr.
  - intros h2 df2 H2 Heq. rewrite !apply_filters_outcome by assumption.
    rewrite Heq. reflexivity.
  - intros r1 h1 E. destruct (Hfresh r1 h1 E) as [news [-> [L M]]].
    assert (Hdf' : df < List.length (h ++ news)).
    { rewrite length_app. lia. }
    pose proof (apply_filters_run (h ++ news) C Hdf') as H.
    rewrite (deref_old h news Hdf), M in H.
    destruct H as [r2 [news2 [E2 [_ [_ D2]]]]].
    exists r2, ((h ++ news) ++ news2). split; [exact E2|]. split; [exact D2|].
    rewrite <- app_assoc. apply deref_old, Hdf.
Qed.

Lemma filter_leaves_input_unchanged_witness :
  exists filtered_df h',
    apply_filters 0 (mkSelection (Num 2020) All All) [sample_df]
    = Ok (filtered_df, h')
    /\ deref h' 0 = sample_df /\ 1 <= filtered_df.
Proof.
  assert (H0 : 0 < List.length [sample_df]) by (simpl; lia).
  destruct (@filter_leaves_input_unchanged [sample_df] 0
              (mkSelection (Num 2020) All All) H0) as [H _].
  eexists. eexists. split; [reflexivity|].
  destruct (H _ _ eq_refl) as [_ [Hold Hnew]].
  split; [apply (Hold 0 H0) | exact Hnew].
Defined.



(** ** Value counts *)

Lemma timestamp_eqb_eq (a b : Timestamp) : timestamp_eqb a b = true <-> a = b.
Proof.
  destruct a as [y m d], b as [y' m' d']. unfold timestamp_eqb. simpl.
  rewrite !andb_true_iff, !Z.eqb_eq. split.
  - intros [[-> ->] ->]. reflexivity.
  - intros E. inversion E. auto.
Qed.

Lemma cell_same_eq (a b : cell) : cell_same a b = true <-> a = b.
Proof.
  destruct a, b; simpl; split; intros H;
    try discriminate; try reflexivity.
  - apply String.eqb_eq in H. congruence.
  - inversion H. apply String.eqb_refl.
  - apply Z.eqb_eq in H. congruence.
  - inversion H. apply Z.eqb_refl.
  - apply timestamp_eqb_eq in H. congruence.
  - inversion H. apply timestamp_eqb_eq. reflexivity.
Qed.

Lemma dropna_present (s : Series) :
  Forall (fun x => isnull x = false) (dropna s).
Proof.
  apply Forall_forall. intros x Hx. apply filter_In in Hx.
  destruct Hx as [_ Hx]. apply negb_true_iff, Hx.
Qed.

Lemma dropna_column (field : string) (rs : list Row) :
  List.length (dropna (map (get field) rs)) =
  List.length (filter (fun r => negb (isnull (get field r))) rs).
Proof.
  induction rs as [|r rs IH]; simpl; [reflexivity|].
  destruct (isnull (get field r)); simpl; rewrite IH; reflexivity.
Qed.

Section ValueCountFacts.

Variable sort_values : list (cell * nat) -> list (cell * nat).

(** All the statements need of [sort_values]: it reorders its argument. *)
Hypothesis sort_values_perm : forall t, Permutation (sort_values t) t.

Lemma value_counts_perm (s : Series) :
  Permutation (value_counts sort_values s) (tally cell_same (dropna s)).
Proof. apply sort_values_perm. Qed.


Lemma value_counts_total_series (s : Series) :
  list_sum (map snd (value_counts sort_values s)) = List.length (dropna s).
Proof.
  rewrite <- (@total_tally _ cell_same (dropna s)).
  apply Permutation_list_sum, Permutation_map, value_counts_perm.
Qed.

Lemma value_counts_present (s : Series) :
  Forall (fun e => isnull (fst e) = false) (value_counts sort_values s).
Proof.
  apply Forall_forall. intros [k n] Hin. simpl.
  apply (Permutation_in _ (value_counts_perm s)) in Hin.
  assert (Hk : In k (dropna s)).
  { apply (@tally_key_In _ _ cell_same_eq).
    change k with (fst (k, n)). apply in_map, Hin. }
  pose proof (dropna_present s) as H. rewrite Forall_forall in H. exact (H k Hk).
Qed.

(** C6. [valueCounts] returns a table whenever the frame has the column;
    no label of the table is an absent value, and the counts add up to the
    number of records whose value in the column is present. *)
Theorem valueCounts_sum_is_present_count :
  forall (records : DataFrame) (field : string),
    has_column field records = true ->
    exists counts,
      valueCounts sort_values records field = Ok counts
      /\ Forall (fun e => isnull (fst e) = false) counts
      /\ list_sum (map snd counts) =
         List.length (filter (fun r => negb (isnull (get field r)))
                             (rows records)).
Proof.
  intros records field H. unfold valueCounts, getitem. rewrite H. simpl.
  eexists. split; [reflexivity|]. split.
  - apply value_counts_present.
  - rewrite value_counts_total_series. apply dropna_column.
Qed.


End ValueCountFacts.

Lemma valueCounts_sum_is_present_count_witness :
  exists counts,
    valueCounts (sort_by (@count_geb cell)) sample_df "journal" = Ok counts
    /\ list_sum (map snd counts) = 1.
Proof.
  destruct (@valueCounts_sum_is_present_count (sort_by (@count_geb cell))
              (sort_by_perm (@count_geb cell)) sample_df "journal" eq_refl)
    as [counts [E [_ Hsum]]].
  exists counts. split; [exact E | exact Hsum].
Defined.


(** ** The dashboard *)

Lemma bind_inv {A B} (m : M A) (k : A -> M B) (h h2 : heap) (b : B) :
  bind m k h = Ok (b, h2) ->
  exists a h1, m h = Ok (a, h1) /\ k a h1 = Ok (b, h2).
Proof.
  unfold bind. destruct (m h) as [[a h1]|c]; intros E; [|discriminate].
  exists a, h1. auto.
Qed.

Lemma lift_inv {A} (r : result A) (h h1 : heap) (a : A) :
  lift r h = Ok (a, h1) -> r = Ok a /\ h1 = h.
Proof.
  unfold lift. destruct r; intros E; inversion E. auto.
Qed.

Lemma frame_inv (r : ref) (h h1 : heap) (d : DataFrame) :
  frame r h = Ok (d, h1) -> d = deref h r /\ h1 = h.
Proof. unfold frame. intros E. inversion E. auto. Qed.

Ltac step_frame E d :=
  let a := fresh d in let h1 := fresh "h" in
  let E1 := fresh "E" in let Ea := fresh "E" in let Eh := fresh "E" in
  apply bind_inv in E; destruct E as [a [h1 [E1 E]]];
  apply frame_inv in E1; destruct E1 as [Ea Eh]; subst a h1.

Ltac step_lift E x Ex :=
  let h1 := fresh "h" in let E1 := fresh "E" in let Eh := fresh "E" in
  apply bind_inv in E; destruct E as [x [h1 [E1 E]]];
  apply lift_inv in E1; destruct E1 as [Ex Eh]; subst h1.

Section DashboardFacts.

Variable sort_values : list (cell * nat) -> list (cell * nat).
Variable DTypes : Type.
Variable dtypes : DataFrame -> DTypes.
Variable Summary : Type.
Variable describe : DataFrame -> Summary.

Lemma dashboard_run (h h' : heap) (df : ref) (sel : Selection)
      (v : Views DTypes Summary) :
  df < List.length h ->
  dashboard sort_values dtypes describe df sel h = Ok (v, h') ->
  exists fd per_year top titles,
    filter_model (deref h df) sel = Ok fd
    /\ valueCounts sort_values fd "PublicationYear" = Ok per_year
    /\ topN sort_values fd "journal" 10 = Ok top
    /\ joined_titles fd = Ok titles
    /\ v = mkViews (len fd) fd (head 20 fd) (shape fd)
                   (dtypes (deref h df)) (missing_values (deref h df))
                   (describe (deref h df))
                   (sort_index per_year) top titles
                   (if has_column "source_x" fd
                    then Some (value_counts sort_values
                                 (map (get "source_x") (rows fd)))
                    else None)
                   (word_frequencies titles 20).
Proof.
  intros Hdf E. unfold dashboard in E.
  step_frame E d.
  step_lift E o1 Eo1. step_lift E o2 Eo2. step_lift E o3 Eo3.
  apply bind_inv in E. destruct E as [r [h1 [Ef E]]].
  pose proof (apply_filters_run h sel Hdf) as Hrun.
  destruct (filter_model (deref h df) sel) as [fd|k];
    [|rewrite Ef in Hrun; discriminate].
  destruct Hrun as [r' [news [Ef' [_ [_ D]]]]].
  rewrite Ef in Ef'. inversion Ef'; subst r' h1. clear Ef'.
  step_frame E fd'. step_frame E d'.
  rewrite D, (deref_old h news Hdf) in E.
  step_lift E per_year Ey. step_lift E top Et. step_lift E titles Ett.
  apply bind_inv in E. destruct E as [sources [h2 [Es E]]].
  exists fd, per_year, top, titles.
  repeat (split; [assumption || reflexivity|]).
  assert (Hsrc : sources =
                 if has_column "source_x" fd
                 then Some (value_counts sort_values
                              (map (get "source_x") (rows fd)))
                 else None).
  { destruct (has_column "source_x" fd) eqn:Hs.
    - step_lift Es c Ec. inversion Es.
      unfold valueCounts, getitem in Ec. rewrite Hs in Ec. simpl in Ec.
      inversion Ec. reflexivity.
    - inversion Es. reflexivity. }
  inversion E. rewrite Hsrc. reflexivity.
Qed.

(** C2, as the code has it.  The download, the sample, the shape, the
    publications per year, the top journals, the joined titles, the source
    counts and the word frequencies are computed from the frame the filter
    returns: two runs whose filtered frames are equal show the same.  The
    data types, the missing-value summary and the descriptive statistics
    are those of the loaded frame, whatever was selected. *)
Theorem views_and_their_frames :
  forall (h h' : heap) (df : ref) (sel : Selection)
         (v : Views DTypes Summary),
    df < List.length h ->
    dashboard sort_values dtypes describe df sel h = Ok (v, h') ->
    filter_frame (deref h df) sel = Ok (download v)
    /\ dataset_part v = (dtypes (deref h df), missing_values (deref h df),
                         describe (deref h df))
    /\ (forall (h2 h2' : heap) (df2 : ref) (sel2 : Selection)
               (v2 : Views DTypes Summary),
           df2 < List.length h2 ->
           dashboard sort_values dtypes describe df2 sel2 h2 = Ok (v2, h2') ->
           download v2 = download v ->
           filtered_part v2 = filtered_part v).
Proof.
  intros h h' df sel v Hdf E.
  destruct (@dashboard_run h h' df sel v Hdf E)
    as [fd [py [top [ti [Ef [Ey [Et [Eti Ev]]]]]]]].
  split; [|split].
  - rewrite filter_frame_model, Ef, Ev. reflexivity.
  - rewrite Ev. reflexivity.
  - intros h2 h2' df2 sel2 v2 Hdf2 E2 Hd.
    destruct (@dashboard_run h2 h2' df2 sel2 v2 Hdf2 E2)
      as [fd2 [py2 [top2 [ti2 [Ef2 [Ey2 [Et2 [Eti2 Ev2]]]]]]]].
    assert (Hfd : fd2 = fd) by (rewrite Ev, Ev2 in Hd; exact Hd).
    subst fd2.
    rewrite Ey in Ey2. rewrite Et in Et2. rewrite Eti in Eti2.
    inversion Ey2. inversion Et2. inversion Eti2. subst py2 top2 ti2.
    rewrite Ev, Ev2. reflexivity.
Qed.

End DashboardFacts.

Lemma views_and_their_frames_witness :
  exists v h',
    dashboard (sort_by (@count_geb cell)) columns count_row 0
              (mkSelection All (Str "Lancet") All) [sample_df] = Ok (v, h')
    /\ filter_frame sample_df (mkSelection All (Str "Lancet") All)
       = Ok (download v)
    /\ missing v = missing_values sample_df.
Proof.
  assert (H0 : 0 < List.length [sample_df]) by (simpl; lia).
  eexists. eexists. split; [reflexivity|].
  destruct (@views_and_their_frames (sort_by (@count_geb cell))
              _ columns _ count_row [sample_df] _ 0
              (mkSelection All (Str "Lancet") All) _ H0 eq_refl)
    as [H1 [H2 _]].
  split; [exact H1|].
  exact (f_equal (fun t => snd (fst t)) H2).
Defined.

(** C2 as stated fails: with the journal box on [Lancet] the filter keeps
    the first record of [sample_df] only, yet the missing-value summary
    still reports the journal missing in one record, and the count row of
    the statistics still counts both records: neither is the summary of
    the filtered frame. *)
Lemma dataset_info_ignores_the_filter :
  exists v h' fd,
    dashboard (sort_by (@count_geb cell)) columns count_row 0
              (mkSelection All (Str "Lancet") All) [sample_df] = Ok (v, h')
    /\ filter_frame sample_df (mkSelection All (Str "Lancet") All) = Ok fd
    /\ len fd = 1
    /\ missing v <> missing_values fd
    /\ statistics v <> count_row fd.
Proof.
  eexists. eexists. eexists.
  split; [reflexivity|]. split; [reflexivity|]. split; [reflexivity|].
  split; vm_compute; discriminate.
Qed.

(* ===================================================================== *)
(** * Further properties of the script *)
(* ===================================================================== *)

(** ** load_data in any store *)

Lemma update_new (h : heap) (x d : DataFrame) :
  update (List.length h) d (h ++ [x]) = h ++ [d].
Proof. induction h as [|y h IH]; simpl; [reflexivity|]. rewrite IH. reflexivity. Qed.

Lemma col_new (h : heap) (d : DataFrame) (c : string) :
  col (List.length h) c (h ++ [d]) =
  if has_column c d then Ok (map (get c) (rows d), h ++ [d]) else KeyError c.
Proof.
  unfold col, frame, lift, getitem, bind. rewrite deref_new.
  destruct (has_column c d); reflexivity.
Qed.

Lemma set_col_new (h : heap) (d : DataFrame) (c : string) (s : Series) :
  set_col (List.length h) c s (h ++ [d]) = Ok (tt, h ++ [setitem d c s]).
Proof. unfold set_col. rewrite deref_new, update_new. reflexivity. Qed.

Lemma setitem_rows_map (d : DataFrame) (c : string) (g : Row -> cell) :
  setitem d c (map g (rows d)) =
  mkFrame (with_column c (columns d)) (map (fun r => set c (g r) r) (rows d)).
Proof. unfold setitem. rewrite assign_map. reflexivity. Qed.

Lemma columns_setitem (d : DataFrame) (c : string) (s : Series) :
  columns (setitem d c s) = with_column c (columns d).
Proof. reflexivity. Qed.

Lemma frame_parts (d : DataFrame) (cols : list string) (rs : list Row) :
  columns d = cols -> rows d = rs -> d = mkFrame cols rs.
Proof. destruct d. simpl. intros -> ->. reflexivity. Qed.

Lemma with_column_has (c : string) (cols : list string) :
  existsb (String.eqb c) cols = true -> with_column c cols = cols.
Proof. intros H. unfold with_column. rewrite H. reflexivity. Qed.

Section LoadRun.

Variable convert : cell -> option Timestamp.

Lemma load_data_run (csv : DataFrame) (h : heap) :
  load_data convert csv h =
  if has_column "publish_time" csv then
    if has_column "abstract" csv then
      Ok (List.length h,
          h ++ [mkFrame (with_column "abstractWordCount"
                           (with_column "PublicationYear" (columns csv)))
                        (map (load_row convert) (rows csv))])
    else KeyError "abstract"
  else KeyError "publish_time".
Proof.
  unfold load_data, alloc, ret, bind.
  rewrite col_new.
  destruct (has_column "publish_time" csv) eqn:Hp; [|reflexivity].
  rewrite set_col_new, col_new, has_column_setitem, Hp. cbv beta iota.
  rewrite orb_true_l, set_col_new, col_new, !has_column_setitem.
  rewrite !orb_false_r.
  destruct (has_column "abstract" csv) eqn:Ha; [|reflexivity].
  rewrite set_col_new. do 4 f_equal.
  apply frame_parts.
  - rewrite !columns_setitem.
    rewrite (with_column_has "publish_time" (columns csv) Hp). reflexivity.
  - unfold to_datetime_coerce, dt_year, astype_str, setitem. cbn [rows].
    rewrite ?map_map. rewrite assign_map.
    rewrite ?map_map. rewrite assign_map.
    rewrite ?map_map. rewrite assign_map.
    rewrite ?map_map. apply map_ext. intros r. reflexivity.
Qed.

End LoadRun.

Lemma has_with_column (c c' : string) (cols : list string) :
  existsb (String.eqb c) (with_column c' cols) =
  existsb (String.eqb c) cols || String.eqb c c'.
Proof.
  unfold with_column. destruct (existsb (String.eqb c') cols) eqn:E.
  - destruct (String.eqb_spec c c') as [->|];
      [rewrite E | rewrite orb_false_r]; reflexivity.
  - rewrite existsb_app. simpl. rewrite orb_false_r. reflexivity.
Qed.

Lemma load_data_cases :
  forall (convert : cell -> option Timestamp) (csv : DataFrame) (h : heap),
    (has_column "publish_time" csv = false ->
     load_data convert csv h = KeyError "publish_time")
    /\ (has_column "publish_time" csv = true ->
        has_column "abstract" csv = false ->
        load_data convert csv h = KeyError "abstract")
    /\ ((exists df h', load_data convert csv h = Ok (df, h')) <->
        has_column "publish_time" csv = true
        /\ has_column "abstract" csv = true).
Proof.
  intros convert csv h. rewrite load_data_run.
  destruct (has_column "publish_time" csv), (has_column "abstract" csv);
    repeat split; try discriminate; try reflexivity; intros;
    try (destruct H as [? [? H]]; discriminate);
    try (destruct H; discriminate);
    try (eexists; eexists; reflexivity).
Qed.

(** X1. [load_data] raises [KeyError] for [publish_time] when the table
    lacks that column, for [abstract] when only that one is missing, and
    returns a frame exactly when both are there. *)
Theorem load_data_needs_two_columns :
  forall (convert : cell -> option Timestamp) (csv : DataFrame) (h : heap),
    (has_column "publish_time" csv = false ->
     load_data convert csv h = KeyError "publish_time")
    /\ (has_column "publish_time" csv = true ->
        has_column "abstract" csv = false ->
        load_data convert csv h = KeyError "abstract")
    /\ ((exists df h', load_data convert csv h = Ok (df, h')) <->
        has_column "publish_time" csv = true
        /\ has_column "abstract" csv = true).
Proof. exact load_data_cases. Qed.

Lemma load_data_needs_two_columns_witness :
  load_data iso_date (mkFrame ["title"; "abstract"] []) []
  = KeyError "publish_time"
  /\ load_data iso_date (mkFrame ["title"; "publish_time"] []) []
     = KeyError "abstract".
Proof.
  split.
  - apply (proj1 (load_data_needs_two_columns iso_date
                    (mkFrame ["title"; "abstract"] []) [])). reflexivity.
  - apply (proj1 (proj2 (load_data_needs_two_columns iso_date
                    (mkFrame ["title"; "publish_time"] []) [])));
      reflexivity.
Defined.

Lemma load_data_frame :
  forall (convert : cell -> option Timestamp) (csv : DataFrame)
         (h h' : heap) (df : ref),
    load_data convert csv h = Ok (df, h') ->
    df = List.length h
    /\ (exists d, h' = h ++ [d])
    /\ (forall r, r < List.length h -> deref h' r = deref h r)
    /\ len (deref h' df) = len csv
    /\ columns (deref h' df) =
       with_column "abstractWordCount"
         (with_column "PublicationYear" (columns csv))
    /\ (exists added, columns (deref h' df) = columns csv ++ added)
    /\ (forall c, has_column c (deref h' df) =
                  has_column c csv || String.eqb c "PublicationYear"
                  || String.eqb c "abstractWordCount").
Proof.
  intros convert csv h h' df E. rewrite load_data_run in E.
  destruct (has_column "publish_time" csv); [|discriminate].
  destruct (has_column "abstract" csv); [|discriminate].
  inversion E; subst. clear E.
  split; [reflexivity|]. split; [eexists; reflexivity|].
  split; [intros r Hr; apply deref_old, Hr|].
  rewrite deref_new. unfold len. cbn [rows columns].
  split; [apply length_map|]. split; [reflexivity|]. split.
  - unfold with_column.
    destruct (existsb (String.eqb "PublicationYear") (columns csv));
      match goal with
      | |- context [if ?b then _ else _] => destruct b
      end; rewrite <- ?app_assoc; eexists;
      try reflexivity; symmetry; apply app_nil_r.
  - intros c. unfold has_column. cbn [columns].
    rewrite !has_with_column. reflexivity.
Qed.

(** X2. When [load_data] returns, it has added one frame to the store and
    changed no other; the frame has as many records as the table, and its
    columns are those of the table, in order, followed by
    [PublicationYear] and [abstractWordCount] where the table did not
    already have them. *)
Theorem load_data_shape :
  forall (convert : cell -> option Timestamp) (csv : DataFrame)
         (h h' : heap) (df : ref),
    load_data convert csv h = Ok (df, h') ->
    df = List.length h
    /\ (exists d, h' = h ++ [d])
    /\ (forall r, r < List.length h -> deref h' r = deref h r)
    /\ len (deref h' df) = len csv
    /\ columns (deref h' df) =
       with_column "abstractWordCount"
         (with_column "PublicationYear" (columns csv))
    /\ (exists added, columns (deref h' df) = columns csv ++ added)
    /\ (forall c, has_column c (deref h' df) =
                  has_column c csv || String.eqb c "PublicationYear"
                  || String.eqb c "abstractWordCount").
Proof. exact load_data_frame. Qed.

Lemma load_data_shape_witness :
  exists h',
    load_data iso_date sample_csv [] = Ok (0, h')
    /\ columns (deref h' 0) =
       ["title"; "abstract"; "journal"; "publish_time";
        "PublicationYear"; "abstractWordCount"]
    /\ len (deref h' 0) = 2.
Proof.
  eexists. split; [reflexivity|].
  destruct (@load_data_shape iso_date sample_csv [] _ 0 eq_refl)
    as [_ [_ [_ [Hlen [Hcols _]]]]].
  split; [exact Hcols | exact Hlen].
Defined.

Lemma loaded_rows_invariant :
  forall (convert : cell -> option Timestamp) (csv d : DataFrame),
    loaded convert csv = Ok d ->
    Forall (fun r =>
              ((get "publish_time" r = NaT /\ get "PublicationYear" r = NaN)
               \/ (exists t, get "publish_time" r = Time t
                             /\ get "PublicationYear" r = Num (ts_year t)))
              /\ (exists n, get "abstractWordCount" r = Num n /\ (0 <= n)%Z))
           (rows d).
Proof.
  intros convert csv d E. unfold loaded in E. rewrite load_data_run in E.
  destruct (has_column "publish_time" csv); [|discriminate].
  destruct (has_column "abstract" csv); [|discriminate].
  simpl in E. inversion E; subst. clear E. cbn [rows].
  apply Forall_forall. intros r' Hin. apply in_map_iff in Hin.
  destruct Hin as [r [<- _]]. split.
  - rewrite load_row_year.
    rewrite load_row_publish_time.
    destruct (isnull (get "publish_time" r)); [left; auto|].
    destruct (convert (get "publish_time" r)) as [t|];
      [right; exists t; auto | left; auto].
  - rewrite load_row_word_count. unfold word_count. eexists.
    split; [reflexivity | apply Nat2Z.is_nonneg].
Qed.

(** X3. In every record [load_data] produces, [publish_time] is a
    timestamp or [NaT], never the text read from the file, and
    [PublicationYear] is absent exactly when [publish_time] is, and is the
    year of the timestamp otherwise; [abstractWordCount] is always a
    number, never negative. *)
Theorem loaded_record_invariant :
  forall (convert : cell -> option Timestamp) (csv d : DataFrame),
    loaded convert csv = Ok d ->
    Forall (fun r =>
              ((get "publish_time" r = NaT /\ get "PublicationYear" r = NaN)
               \/ (exists t, get "publish_time" r = Time t
                             /\ get "PublicationYear" r = Num (ts_year t)))
              /\ (exists n, get "abstractWordCount" r = Num n /\ (0 <= n)%Z))
           (rows d).
Proof. exact loaded_rows_invariant. Qed.

Lemma loaded_record_invariant_witness :
  exists d,
    loaded iso_date sample_csv = Ok d
    /\ Forall (fun r => exists n, get "abstractWordCount" r = Num n
                                  /\ (0 <= n)%Z) (rows d).
Proof.
  exists sample_df. split; [reflexivity|].
  eapply Forall_impl;
    [|exact (@loaded_record_invariant iso_date sample_csv sample_df eq_refl)].
  intros r [_ H]. exact H.
Defined.

(** ** [str.split] and the word count *)







(** ** More on the filter *)

Lemma cell_eqb_eq (a b : cell) : cell_eqb a b = true -> a = b.
Proof.
  destruct a, b; simpl; intros H; try discriminate.
  - apply String.eqb_eq in H. congruence.
  - apply Z.eqb_eq in H. congruence.
  - apply timestamp_eqb_eq in H. congruence.
Qed.

Lemma cell_eqb_refl (a : cell) : isnull a = false -> cell_eqb a a = true.
Proof.
  destruct a; simpl; intros H; try discriminate.
  - apply String.eqb_refl.
  - apply Z.eqb_refl.
  - apply timestamp_eqb_eq. reflexivity.
Qed.

Lemma cell_eqb_present (a b : cell) : cell_eqb a b = true -> isnull a = false.
Proof. destruct a, b; simpl; intros H; try discriminate; reflexivity. Qed.

Lemma meets_iff (c : string) (v : cell) (r : Row) :
  meets c v r = true <-> (constrains v = true -> cell_eqb (get c r) v = true).
Proof.
  unfold meets. destruct (constrains v); simpl; split; auto.
  intros _ H. discriminate.
Qed.

Lemma matches_iff (C : Selection) (r : Row) :
  matches C r = true <->
  (constrains (selected_year C) = true ->
   cell_eqb (get "PublicationYear" r) (selected_year C) = true)
  /\ (constrains (selected_journal C) = true ->
      cell_eqb (get "journal" r) (selected_journal C) = true)
  /\ (constrains (selected_source C) = true ->
      cell_eqb (get "source_x" r) (selected_source C) = true).
Proof.
  unfold matches. rewrite !andb_true_iff, !meets_iff. tauto.
Qed.

Lemma filter_frame_rows (R R' : DataFrame) (C : Selection) :
  filter_frame R C = Ok R' -> rows R' = filter (matches C) (rows R).
Proof.
  rewrite filter_frame_model. intros E.
  apply filter_model_columns in E. tauto.
Qed.

(** X5. A record is in the filtered frame exactly when it is a record of
    the input and, for each box that holds something other than the
    sentinel, its value in that column compares equal to the selection.
    Such a value is identical to the selected one and is never absent, so
    a record with no value in a constrained column is always left out;
    the filtered frame is never larger than the input. *)
Theorem filter_keeps_exact_matches :
  forall (R R' : DataFrame) (C : Selection),
    filter_frame R C = Ok R' ->
    (forall r, In r (rows R') <-> In r (rows R) /\ matches C r = true)
    /\ (forall r, In r (rows R') ->
          (constrains (selected_year C) = true ->
           get "PublicationYear" r = selected_year C
           /\ isnull (get "PublicationYear" r) = false)
          /\ (constrains (selected_journal C) = true ->
              get "journal" r = selected_journal C
              /\ isnull (get "journal" r) = false)
          /\ (constrains (selected_source C) = true ->
              get "source_x" r = selected_source C
              /\ isnull (get "source_x" r) = false))
    /\ len R' <= len R.
Proof.
  intros R R' C E. apply filter_frame_rows in E.
  split; [|split].
  - intros r. rewrite E. apply filter_In.
  - intros r Hin. rewrite E in Hin. apply filter_In in Hin.
    destruct Hin as [_ Hm]. apply matches_iff in Hm.
    destruct Hm as [Hy [Hj Hs]].
    split; [|split]; intros Hc;
      (split; [apply cell_eqb_eq | eapply cell_eqb_present]); eauto.
  - unfold len. rewrite E. apply filter_length_le.
Qed.

Lemma filter_keeps_exact_matches_witness :
  exists R',
    filter_frame sample_df (mkSelection (Num 2020) All All) = Ok R'
    /\ len R' <= 2
    /\ forall r, In r (rows R') -> get "PublicationYear" r = Num 2020.
Proof.
  eexists. split; [reflexivity|].
  destruct (@filter_keeps_exact_matches sample_df _
              (mkSelection (Num 2020) All All) eq_refl) as [_ [H2 H3]].
  split; [exact H3|].
  intros r Hin. apply (proj1 (H2 r Hin)). reflexivity.
Defined.

Lemma filter_frame_cases :
  forall (R : DataFrame) (C : Selection),
    (forall c, filter_frame R C = KeyError c ->
               In c (required C) /\ has_column c R = false)
    /\ ((exists c, filter_frame R C = KeyError c) <->
        (exists c, In c (required C) /\ has_column c R = false))
    /\ ((exists R', filter_frame R C = Ok R') <->
        (forall c, In c (required C) -> has_column c R = true)).
Proof.
  intros R C. rewrite filter_frame_model. unfold filter_model.
  destruct (find (fun c => negb (has_column c R)) (required C)) as [k|] eqn:E.
  - apply find_some in E. destruct E as [Hin Hk].
    apply negb_true_iff in Hk.
    split; [|split].
    + intros c Hc. inversion Hc; subst. auto.
    + split; intros _; eauto.
    + split.
      * intros [R' H]. discriminate.
      * intros H. rewrite (H k Hin) in Hk. discriminate.
  - split; [|split].
    + intros c Hc. discriminate.
    + split.
      * intros [c Hc]. discriminate.
      * intros [c [Hin Hc]].
        pose proof (find_none _ _ E c Hin) as Hn. cbv beta in Hn.
        rewrite Hc in Hn. discriminate.
    + split; [|eauto]. intros _ c Hin.
      pose proof (find_none _ _ E c Hin) as Hn. cbv beta in Hn.
      apply negb_false_iff in Hn. exact Hn.
Qed.

(** X6. The filter raises [KeyError] exactly when a box other than the
    sentinel names a column the frame lacks, and the error then names
    such a column; nothing else makes it fail. *)
Theorem filter_error_is_a_missing_column :
  forall (R : DataFrame) (C : Selection),
    (forall c, filter_frame R C = KeyError c ->
               In c (required C) /\ has_column c R = false)
    /\ ((exists c, filter_frame R C = KeyError c) <->
        (exists c, In c (required C) /\ has_column c R = false))
    /\ ((exists R', filter_frame R C = Ok R') <->
        (forall c, In c (required C) -> has_column c R = true)).
Proof. exact filter_frame_cases. Qed.

Lemma filter_error_is_a_missing_column_witness :
  filter_frame sample_df (mkSelection All All (Str "PMC")) = KeyError "source_x"
  /\ In "source_x" (required (mkSelection All All (Str "PMC")))
  /\ has_column "source_x" sample_df = false.
Proof.
  split; [reflexivity|].
  exact (proj1 (filter_error_is_a_missing_column sample_df
                  (mkSelection All All (Str "PMC"))) "source_x" eq_refl).
Defined.

Lemma filter_implied {A} (p q : A -> bool) (l : list A) :
  (forall x, p x = true -> q x = true) ->
  filter p (filter q l) = filter p l.
Proof.
  intros H. induction l as [|x l IH]; simpl; [reflexivity|].
  destruct (q x) eqn:Eq; simpl.
  - rewrite IH. reflexivity.
  - destruct (p x) eqn:Ep; [|exact IH].
    rewrite (H x Ep) in Eq. discriminate.
Qed.

Lemma relaxes_matches (C' C : Selection) (r : Row) :
  relaxes C' C -> matches C r = true -> matches C' r = true.
Proof.
  intros [Hy [Hj Hs]]. rewrite !matches_iff. intros [My [Mj Ms]].
  repeat split; intros Hc.
  - destruct Hy as [Hy|Hy]; [congruence|]. rewrite Hy in *. auto.
  - destruct Hj as [Hj|Hj]; [congruence|]. rewrite Hj in *. auto.
  - destruct Hs as [Hs|Hs]; [congruence|]. rewrite Hs in *. auto.
Qed.

Lemma relaxes_required (C' C : Selection) (c : string) :
  relaxes C' C -> In c (required C') -> In c (required C).
Proof.
  intros [Hy [Hj Hs]]. unfold required. rewrite !in_app_iff.
  intros [H|[H|H]]; [left|right; left|right; right].
  - destruct (constrains (selected_year C')) eqn:E; [|destruct H].
    destruct Hy as [Hy|Hy]; [discriminate|]. rewrite <- Hy, E. exact H.
  - destruct (constrains (selected_journal C')) eqn:E; [|destruct H].
    destruct Hj as [Hj|Hj]; [discriminate|]. rewrite <- Hj, E. exact H.
  - destruct (constrains (selected_source C')) eqn:E; [|destruct H].
    destruct Hs as [Hs|Hs]; [discriminate|]. rewrite <- Hs, E. exact H.
Qed.

(** X7. Putting boxes back to the sentinel can only widen the result:
    when the filter returns [R1] for a selection, it also returns a frame
    [R2] for every selection that relaxes it, the records of [R1] are a
    subsequence of those of [R2], and filtering [R2] with the full
    selection gives [R1] again. *)
Theorem filter_narrows_in_stages :
  forall (R R1 : DataFrame) (C C' : Selection),
    relaxes C' C ->
    filter_frame R C = Ok R1 ->
    exists R2,
      filter_frame R C' = Ok R2
      /\ Subseq (rows R1) (rows R2)
      /\ filter_frame R2 C = Ok R1.
Proof.
  intros R R1 C C' Hrel E1.
  assert (Hcols : forall c, In c (required C) -> has_column c R = true).
  { apply (proj2 (proj2 (filter_frame_cases R C))). eauto. }
  rewrite filter_frame_model in E1.
  rewrite (filter_model_defined R C Hcols) in E1. inversion E1; subst R1.
  exists (mkFrame (columns R) (filter (matches C') (rows R))).
  split; [|split].
  - rewrite filter_frame_model. apply filter_model_defined.
    intros c Hc. apply Hcols. eapply relaxes_required; eauto.
  - cbn [rows].
    rewrite <- (filter_implied (matches C) (matches C') (rows R))
      by (intros r; apply relaxes_matches, Hrel).
    apply Subseq_filter.
  - rewrite filter_frame_model, filter_model_defined by exact Hcols.
    cbn [rows columns].
    rewrite filter_implied by (intros r; apply relaxes_matches, Hrel).
    reflexivity.
Qed.

Lemma filter_narrows_in_stages_witness :
  exists R2,
    filter_frame sample_df (mkSelection All All All) = Ok R2
    /\ Subseq (rows (mkFrame (columns sample_df) (skipn 1 (rows sample_df))))
              (rows R2).
Proof.
  assert (Hrel : relaxes (mkSelection All All All)
                         (mkSelection (Num 2020) All All)).
  { repeat split; left; reflexivity. }
  destruct (@filter_narrows_in_stages sample_df _
              (mkSelection (Num 2020) All All) (mkSelection All All All)
              Hrel eq_refl) as [R2 [E [S _]]].
  exists R2. split; [exact E | exact S].
Defined.

(** ** The select boxes *)

Lemma dropna_In (s : Series) (v : cell) :
  In v (dropna s) <-> In v s /\ isnull v = false.
Proof.
  unfold dropna. rewrite filter_In, negb_true_iff. tauto.
Qed.

Lemma unique_lists_values (s : Series) : lists_values s (unique (dropna s)).
Proof.
  split.
  - apply (@distinct_from_NoDup _ _ cell_same_eq).
  - intros v. unfold unique, distinct.
    rewrite (@distinct_from_In _ _ cell_same_eq), dropna_In. simpl. tauto.
Qed.

Lemma lists_values_perm (s : Series) (o o' : list cell) :
  Permutation o o' -> lists_values s o -> lists_values s o'.
Proof.
  intros P [Hn Hv]. split.
  - eapply Permutation_NoDup; eauto.
  - intros v. rewrite <- Hv. split; apply Permutation_in;
      [symmetry|]; exact P.
Qed.

Lemma getitem_column (d : DataFrame) (c : string) :
  getitem d c = if has_column c d then Ok (column c d) else KeyError c.
Proof. reflexivity. Qed.

Lemma options_cases :
  forall (d : DataFrame),
    (if has_column "PublicationYear" d
     then exists rest, year_options d = Ok (All :: rest)
                       /\ lists_values (column "PublicationYear" d) rest
     else year_options d = KeyError "PublicationYear")
    /\ (if has_column "journal" d
        then exists rest, journal_options d = Ok (All :: rest)
                          /\ lists_values (column "journal" d) rest
        else journal_options d = KeyError "journal")
    /\ (if has_column "source_x" d
        then exists rest, source_options d = Ok (All :: rest)
                          /\ lists_values (column "source_x" d) rest
        else source_options d = Ok [All]).
Proof.
  intros d. unfold year_options, journal_options, source_options.
  rewrite !getitem_column.
  split; [|split].
  - destruct (has_column "PublicationYear" d); [|reflexivity].
    eexists. split; [reflexivity|].
    eapply lists_values_perm; [|apply unique_lists_values].
    symmetry. apply sort_by_perm.
  - destruct (has_column "journal" d); [|reflexivity].
    eexists. split; [reflexivity | apply unique_lists_values].
  - destruct (has_column "source_x" d); [|reflexivity].
    eexists. split; [reflexivity | apply unique_lists_values].
Qed.

(** X8. What the boxes offer: each list starts with the sentinel, and
    after it holds every present value of its column exactly once (the
    years in sorted order); the source box needs no column and offers the
    sentinel alone when the frame has none, while the year and journal
    boxes raise [KeyError] when their column is missing. *)
Theorem select_box_options :
  forall (d : DataFrame),
    (if has_column "PublicationYear" d
     then exists rest, year_options d = Ok (All :: rest)
                       /\ lists_values (column "PublicationYear" d) rest
     else year_options d = KeyError "PublicationYear")
    /\ (if has_column "journal" d
        then exists rest, journal_options d = Ok (All :: rest)
                          /\ lists_values (column "journal" d) rest
        else journal_options d = KeyError "journal")
    /\ (if has_column "source_x" d
        then exists rest, source_options d = Ok (All :: rest)
                          /\ lists_values (column "source_x" d) rest
        else source_options d = Ok [All]).
Proof. exact options_cases. Qed.

Lemma options_constrained (c : string) (d : DataFrame) (v : cell)
      (rest : list cell) :
  lists_values (column c d) rest -> In v (All :: rest) ->
  constrains v = true ->
  exists r, In r (rows d) /\ get c r = v /\ isnull v = false.
Proof.
  intros [_ Hv] [<-|Hin] Hc; [discriminate|].
  apply Hv in Hin. destruct Hin as [Hin Hp].
  apply in_map_iff in Hin. destruct Hin as [r [E Hr]]. eauto.
Qed.

(** X9. A selection made from what the boxes offer never makes the filter
    raise: every column a constrained box names exists. *)
Theorem offered_selection_never_raises :
  forall (d : DataFrame) (sel : Selection),
    offered d sel -> exists R', filter_frame d sel = Ok R'.
Proof.
  intros d sel [[ys [Ey Hy]] [[js [Ej Hj]] [ss [Es Hs]]]].
  apply (proj2 (proj2 (filter_frame_cases d sel))).
  destruct (options_cases d) as [Oy [Oj Os]].
  intros c Hc. unfold required in Hc. rewrite !in_app_iff in Hc.
  destruct Hc as [Hc|[Hc|Hc]].
  - destruct (constrains (selected_year sel)); [|destruct Hc].
    destruct Hc as [<-|[]].
    destruct (has_column "PublicationYear" d); [reflexivity|].
    rewrite Oy in Ey. discriminate.
  - destruct (constrains (selected_journal sel)); [|destruct Hc].
    destruct Hc as [<-|[]].
    destruct (has_column "journal" d); [reflexivity|].
    rewrite Oj in Ej. discriminate.
  - destruct (constrains (selected_source sel)) eqn:E; [|destruct Hc].
    destruct Hc as [<-|[]].
    destruct (has_column "source_x" d); [reflexivity|].
    rewrite Os in Es. inversion Es; subst ss.
    destruct Hs as [Hs|[]]. rewrite <- Hs in E. discriminate.
Qed.

Lemma offered_selection_never_raises_witness :
  exists R', filter_frame sample_df (mkSelection (Num 2020) (Str "Lancet") All)
             = Ok R'.
Proof.
  apply offered_selection_never_raises.
  split; [|split]; eexists; (split; [reflexivity|]); simpl; auto.
Defined.

(** X10. A value offered by a box, other than the sentinel, always
    matches at least one record: selecting it alone never gives an empty
    frame. *)
Theorem offered_value_matches_a_record :
  forall (d : DataFrame) (v : cell),
    constrains v = true ->
    (forall ys, year_options d = Ok ys -> In v ys ->
       exists R', filter_frame d (mkSelection v All All) = Ok R'
                  /\ rows R' <> [])
    /\ (forall js, journal_options d = Ok js -> In v js ->
          exists R', filter_frame d (mkSelection All v All) = Ok R'
                     /\ rows R' <> [])
    /\ (forall ss, source_options d = Ok ss -> In v ss ->
          exists R', filter_frame d (mkSelection All All v) = Ok R'
                     /\ rows R' <> []).
Proof.
  intros d v Hc.
  destruct (options_cases d) as [Oy [Oj Os]].
  assert (K : forall c C rest,
             has_column c d = true ->
             required C = [c] ->
             (forall r, cell_eqb (get c r) v = true -> matches C r = true) ->
             lists_values (column c d) rest -> In v (All :: rest) ->
             exists R', filter_frame d C = Ok R' /\ rows R' <> []).
  { intros c C rest Hcol Hreq Hm Hl Hin.
    destruct (options_constrained c d Hl Hin Hc) as [r [Hr [Hg Hp]]].
    rewrite filter_frame_model, filter_model_defined.
    - eexists. split; [reflexivity|]. cbn [rows]. intros E.
      assert (Hf : In r (filter (matches C) (rows d))).
      { apply filter_In. split; [exact Hr|]. apply Hm. rewrite Hg.
        apply cell_eqb_refl, Hp. }
      rewrite E in Hf. exact Hf.
    - intros c' Hc'. rewrite Hreq in Hc'. destruct Hc' as [<-|[]]. exact Hcol. }
  split; [|split].
  - intros ys E Hin. destruct (has_column "PublicationYear" d) eqn:Hh;
      [|rewrite Oy in E; discriminate].
    destruct Oy as [rest [E' Hl]]. rewrite E in E'. inversion E'; subst ys.
    apply (K "PublicationYear" _ rest Hh); auto.
    + unfold required. cbn [selected_year selected_journal selected_source].
      rewrite Hc. reflexivity.
    + intros r Hr. apply matches_iff.
      cbn [selected_year selected_journal selected_source].
      repeat split; auto; intros H; discriminate.
  - intros js E Hin. destruct (has_column "journal" d) eqn:Hh;
      [|rewrite Oj in E; discriminate].
    destruct Oj as [rest [E' Hl]]. rewrite E in E'. inversion E'; subst js.
    apply (K "journal" _ rest Hh); auto.
    + unfold required. cbn [selected_year selected_journal selected_source].
      rewrite Hc. reflexivity.
    + intros r Hr. apply matches_iff.
      cbn [selected_year selected_journal selected_source].
      repeat split; auto; intros H; discriminate.
  - intros ss E Hin. destruct (has_column "source_x" d) eqn:Hh.
    + destruct Os as [rest [E' Hl]]. rewrite E in E'. inversion E'; subst ss.
      apply (K "source_x" _ rest Hh); auto.
      * unfold required. cbn [selected_year selected_journal selected_source].
        rewrite Hc. reflexivity.
      * intros r Hr. apply matches_iff.
        cbn [selected_year selected_journal selected_source].
        repeat split; auto; intros H; discriminate.
    + rewrite Os in E. inversion E; subst ss.
      destruct Hin as [<-|[]]. discriminate.
Qed.

Lemma offered_value_matches_a_record_witness :
  exists R', filter_frame sample_df (mkSelection All (Str "Lancet") All) = Ok R'
             /\ rows R' <> [].
Proof.
  refine (proj1 (proj2 (@offered_value_matches_a_record sample_df
                          (Str "Lancet") eq_refl)) _ eq_refl _).
  simpl. auto.
Defined.

(** ** The years offered are in increasing order *)

Lemma insert_by_Num (x : Z) (l : list Z) :
  insert_by cell_leb (Num x) (map Num l) = map Num (insert_by Z.leb x l).
Proof.
  induction l as [|y l IH]; simpl; [reflexivity|].
  destruct (x <=? y)%Z; simpl; [reflexivity|]. rewrite IH. reflexivity.
Qed.

Lemma sort_by_Num (l : list Z) :
  sort_by cell_leb (map Num l) = map Num (sort_by Z.leb l).
Proof.
  unfold sort_by. induction l as [|x l IH]; simpl; [reflexivity|].
  rewrite IH. apply insert_by_Num.
Qed.

Lemma insert_by_Z_sorted (x : Z) (l : list Z) :
  StronglySorted Z.le l -> StronglySorted Z.le (insert_by Z.leb x l).
Proof.
  induction l as [|y l IH]; simpl; intros Hs.
  - repeat constructor.
  - inversion Hs as [|? ? Hs' Hy]; subst.
    destruct (Z.leb_spec x y) as [Hle|Hlt].
    + constructor; [exact Hs|]. constructor; [exact Hle|].
      rewrite Forall_forall in *. intros z Hz. specialize (Hy z Hz). lia.
    + constructor; [apply IH, Hs'|].
      eapply Permutation_Forall; [symmetry; apply insert_by_perm|].
      constructor; [lia | exact Hy].
Qed.

Lemma sort_by_Z_sorted (l : list Z) : StronglySorted Z.le (sort_by Z.leb l).
Proof.
  induction l as [|x l IH]; simpl; [constructor|].
  apply insert_by_Z_sorted, IH.
Qed.

Lemma sorted_NoDup_strict (l : list Z) :
  StronglySorted Z.le l -> NoDup l -> StronglySorted Z.lt l.
Proof.
  induction 1 as [|x l Hs IH Hx]; intros Hn; [constructor|].
  inversion Hn as [|? ? Hnx Hn']; subst.
  constructor; [apply IH, Hn'|].
  rewrite Forall_forall in *. intros z Hz. specialize (Hx z Hz).
  assert (x <> z) by (intros ->; contradiction). lia.
Qed.

Lemma all_Num (l : list cell) :
  Forall (fun c => exists z, c = Num z) l -> exists zs, l = map Num zs.
Proof.
  induction 1 as [|c l [z ->] _ [zs ->]].
  - exists []. reflexivity.
  - exists (z :: zs). reflexivity.
Qed.

(** X11. For a frame [load_data] returned, the year box offers the
    sentinel followed by the years that occur, as numbers in strictly
    increasing order. *)
Theorem year_options_increasing :
  forall (convert : cell -> option Timestamp) (csv d : DataFrame),
    loaded convert csv = Ok d ->
    exists years : list Z,
      year_options d = Ok (All :: map Num years)
      /\ StronglySorted Z.lt years
      /\ (forall y, In y years <->
                    exists r, In r (rows d) /\ get "PublicationYear" r = Num y).
Proof.
  intros convert csv d E.
  pose proof (@loaded_rows_invariant convert csv d E) as Inv.
  assert (Hcol : has_column "PublicationYear" d = true).
  { unfold loaded in E.
    destruct (load_data convert csv []) as [[df h']|k] eqn:El; [|discriminate].
    simpl in E. inversion E; subst d.
    rewrite (proj2 (proj2 (proj2 (proj2 (proj2 (proj2
               (@load_data_frame convert csv [] h' df El))))))).
    rewrite String.eqb_refl, orb_true_r. reflexivity. }
  pose proof (proj1 (options_cases d)) as O. rewrite Hcol in O.
  destruct O as [rest [Eo Hl]].
  assert (Hnum : Forall (fun c => exists z, c = Num z)
                        (unique (dropna (column "PublicationYear" d)))).
  { apply Forall_forall. intros c Hc.
    apply (proj2 (unique_lists_values _)) in Hc. destruct Hc as [Hin Hp].
    apply in_map_iff in Hin. destruct Hin as [r [<- Hr]].
    rewrite Forall_forall in Inv.
    destruct (proj1 (Inv r Hr)) as [[_ Hy]|[t [_ Hy]]]; rewrite Hy in *;
      [discriminate | eauto]. }
  destruct (@all_Num _ Hnum) as [us Eu].
  exists (sort_by Z.leb us).
  assert (Er : year_options d = Ok (All :: map Num (sort_by Z.leb us))).
  { unfold year_options. rewrite getitem_column, Hcol. cbn [rbind].
    unfold sorted. fold (column "PublicationYear" d) in *.
    rewrite Eu, sort_by_Num. reflexivity. }
  split; [exact Er|].
  assert (Hnd : NoDup us).
  { apply (NoDup_map_inv Num). rewrite <- Eu.
    apply (proj1 (unique_lists_values _)). }
  split.
  - apply sorted_NoDup_strict; [apply sort_by_Z_sorted|].
    eapply Permutation_NoDup; [symmetry; apply sort_by_perm | exact Hnd].
  - intros y.
    assert (In y (sort_by Z.leb us) <-> In (Num y) (map Num us)).
    { split.
      - intros H. apply in_map. eapply Permutation_in; [apply sort_by_perm|].
        exact H.
      - intros H. apply in_map_iff in H. destruct H as [z [Ez Hz]].
        inversion Ez; subst z. eapply Permutation_in;
          [symmetry; apply sort_by_perm | exact Hz]. }
    rewrite H, <- Eu, (proj2 (unique_lists_values _)). unfold column.
    rewrite in_map_iff. split.
    + intros [[r [Hg Hr]] _]. eauto.
    + intros [r [Hr Hg]]. split; [eauto | reflexivity].
Qed.

Lemma year_options_increasing_witness :
  exists years,
    year_options sample_df = Ok (All :: map Num years)
    /\ StronglySorted Z.lt years.
Proof.
  destruct (@year_options_increasing iso_date sample_csv sample_df eq_refl)
    as [years [E [S _]]].
  exists years. split; [exact E | exact S].
Defined.

(** ** The missing-value summary (lines 96-97) *)

Lemma filter_map_length {A B} (p : B -> bool) (g : A -> B) (l : list A) :
  List.length (filter p (map g l)) = List.length (filter (fun x => p (g x)) l).
Proof.
  induction l as [|x l IH]; simpl; [reflexivity|].
  destruct (p (g x)); simpl; rewrite IH; reflexivity.
Qed.

Lemma filter_length_pos {A} (p : A -> bool) (l : list A) :
  0 < List.length (filter p l) <-> exists x, In x l /\ p x = true.
Proof.
  split.
  - destruct (filter p l) as [|x r] eqn:E; simpl; [lia|]. intros _.
    exists x. apply filter_In. rewrite E. left. reflexivity.
  - intros [x Hx]. apply filter_In in Hx.
    destruct (filter p l); [destruct Hx | simpl; lia].
Qed.

Lemma isnull_sum_entry (d : DataFrame) (c : string) (n : nat) :
  In (c, n) (isnull_sum d) <-> In c (columns d) /\ n = absent_in c d.
Proof.
  unfold isnull_sum, absent_in. rewrite in_map_iff. split.
  - intros [c' [E Hin]]. inversion E; subst. split; [exact Hin|].
    apply filter_map_length.
  - intros [Hin ->]. exists c. split; [|exact Hin].
    rewrite filter_map_length. reflexivity.
Qed.

(** X12. The missing-value summary has an entry for a column exactly when
    some record has no value there; the entry holds the number of such
    records, which is positive and at most the number of records; the
    entries follow the order of the columns; and the summary is empty
    exactly when no value is missing anywhere. *)
Theorem missing_values_entries :
  forall (d : DataFrame),
    (forall c n, In (c, n) (missing_values d) <->
                 In c (columns d) /\ n = absent_in c d /\ 0 < n)
    /\ (forall c, In c (map fst (missing_values d)) <->
                  In c (columns d)
                  /\ exists r, In r (rows d) /\ isnull (get c r) = true)
    /\ (forall c n, In (c, n) (missing_values d) -> n <= len d)
    /\ Subseq (map fst (missing_values d)) (columns d)
    /\ (missing_values d = [] <->
        forall c r, In c (columns d) -> In r (rows d) ->
                    isnull (get c r) = false).
Proof.
  intros d.
  assert (H1 : forall c n, In (c, n) (missing_values d) <->
                 In c (columns d) /\ n = absent_in c d /\ 0 < n).
  { intros c n. unfold missing_values. rewrite filter_In, isnull_sum_entry.
    simpl. rewrite Nat.ltb_lt. tauto. }
  assert (H2 : forall c, In c (map fst (missing_values d)) <->
                  In c (columns d)
                  /\ exists r, In r (rows d) /\ isnull (get c r) = true).
  { intros c. rewrite in_map_iff. split.
    - intros [[c' n] [E Hin]]. simpl in E. subst c'.
      apply H1 in Hin. destruct Hin as [Hc [Hn Hpos]].
      split; [exact Hc|]. rewrite Hn in Hpos. unfold absent_in in Hpos.
      apply filter_length_pos in Hpos. exact Hpos.
    - intros [Hc Hr]. exists (c, absent_in c d). split; [reflexivity|].
      apply H1. split; [exact Hc|]. split; [reflexivity|].
      unfold absent_in. apply filter_length_pos. exact Hr. }
  split; [exact H1|]. split; [exact H2|]. split; [|split].
  - intros c n Hin. apply H1 in Hin. destruct Hin as [_ [-> _]].
    unfold absent_in, len. apply filter_length_le.
  - clear H1 H2. unfold missing_values, isnull_sum.
    induction (columns d) as [|c cols IH]; simpl; [constructor|].
    destruct (0 <? _)%nat; simpl; constructor; exact IH.
  - split.
    + intros E c r Hc Hr. destruct (isnull (get c r)) eqn:En; [|reflexivity].
      assert (Hin : In c (map fst (missing_values d))) by (apply H2; eauto).
      rewrite E in Hin. destruct Hin.
    + intros H. destruct (missing_values d) as [|[c n] t] eqn:E; [reflexivity|].
      destruct (proj1 (H2 c) (or_introl eq_refl)) as [Hc [r [Hr Hn]]].
      rewrite (H c r Hc Hr) in Hn. discriminate.
Qed.

Lemma missing_values_entries_witness :
  In ("journal", 1) (missing_values sample_df)
  /\ ~ In "title" (map fst (missing_values sample_df)).
Proof.
  destruct (missing_values_entries sample_df) as [H1 [H2 _]].
  split.
  - apply H1. repeat split; simpl; auto 10.
  - intros H. apply H2 in H. destruct H as [_ [r [Hr Hn]]].
    simpl in Hr. destruct Hr as [<-|[<-|[]]]; discriminate.
Defined.

(** ** Value counts: exact counts, the largest first *)

Lemma filter_same_dropna (k : cell) (s : Series) :
  isnull k = false ->
  filter (cell_same k) (dropna s) = filter (cell_same k) s.
Proof.
  intros Hk. unfold dropna. rewrite filter_andb.
  apply filter_ext. intros x. destruct (cell_same k x) eqn:E.
  - apply cell_same_eq in E. subst x. rewrite Hk. reflexivity.
  - apply andb_false_r.
Qed.

Lemma StronglySorted_app_inv {A} (R : A -> A -> Prop) (l1 l2 : list A) :
  StronglySorted R (l1 ++ l2) ->
  forall x y, In x l1 -> In y l2 -> R x y.
Proof.
  induction l1 as [|a l1 IH]; simpl; intros Hs x y Hx Hy; [destruct Hx|].
  inversion Hs as [|? ? Hs' Ha]; subst.
  destruct Hx as [<-|Hx].
  - rewrite Forall_forall in Ha. apply Ha, in_or_app. right. exact Hy.
  - apply IH; assumption.
Qed.

Lemma sort_by_count_descending {K} (t : list (K * nat)) :
  StronglySorted (fun x y => snd y <= snd x) (sort_by (@count_geb K) t).
Proof.
  eapply StronglySorted_weaken;
    [|apply (sort_ranked (before := fun _ _ => True))].
  - intros a b _ _ [H|[H _]]; lia.
  - induction t; constructor; auto. apply Forall_forall. auto.
Qed.

Section ValueCountOrder.

Variable sort_values : list (cell * nat) -> list (cell * nat).
Hypothesis sort_values_perm : forall t, Permutation (sort_values t) t.

(** X13. [valueCounts] holds each present value of the column exactly
    once, with the exact number of records that have it. *)
Theorem valueCounts_exact :
  forall (records : DataFrame) (field : string),
    has_column field records = true ->
    exists counts,
      valueCounts sort_values records field = Ok counts
      /\ NoDup (map fst counts)
      /\ (forall v n, In (v, n) counts <->
                      isnull v = false /\ 0 < n
                      /\ n = records_with field v records).
Proof.
  intros records field H. unfold valueCounts, getitem. rewrite H.
  cbn [rbind]. eexists. split; [reflexivity|].
  set (s := map (get field) (rows records)).
  pose proof (value_counts_perm sort_values sort_values_perm s) as P.
  split.
  - eapply Permutation_NoDup.
    + apply Permutation_map. symmetry. exact P.
    + apply (@tally_keys_NoDup _ _ cell_same_eq).
  - intros v n.
    assert (Hin : In (v, n) (value_counts sort_values s) <->
                  In (v, n) (tally cell_same (dropna s))).
    { split; apply Permutation_in; [exact P | symmetry; exact P]. }
    rewrite Hin, (@tally_entry _ _ cell_same_eq).
    assert (Hrw : records_with field v records
                  = List.length (filter (cell_same v) s)).
    { unfold records_with, s. symmetry. apply filter_map_length. }
    rewrite Hrw. split.
    + intros [Hpos Hn].
      assert (Hv : isnull v = false).
      { rewrite Hn in Hpos. apply filter_length_pos in Hpos.
        destruct Hpos as [x [Hx Hs]]. apply cell_same_eq in Hs. subst x.
        apply dropna_In in Hx. tauto. }
      rewrite filter_same_dropna in Hn by exact Hv. auto.
    + intros [Hv [Hpos Hn]]. rewrite filter_same_dropna by exact Hv. auto.
Qed.

(** The order by count, largest first. *)
Hypothesis sort_values_descending :
  forall t, StronglySorted (fun x y => snd y <= snd x) (sort_values t).

(** X14. When [sort_values] orders by count, largest first, no entry
    [topN] leaves out has a larger count than an entry it keeps. *)
Theorem topN_keeps_the_largest :
  forall (records : DataFrame) (field : string) (n : nat),
    has_column field records = true ->
    exists top counts,
      topN sort_values records field n = Ok top
      /\ valueCounts sort_values records field = Ok counts
      /\ counts = top ++ skipn n counts
      /\ (forall kept left_out,
             In kept top -> In left_out (skipn n counts) ->
             snd left_out <= snd kept).
Proof.
  intros records field n H. unfold topN, valueCounts, getitem. rewrite H.
  cbn [rbind]. eexists. eexists.
  split; [reflexivity|]. split; [reflexivity|].
  set (counts := value_counts sort_values (map (get field) (rows records))).
  split; [symmetry; apply firstn_skipn|].
  intros kept left_out Hk Hl.
  apply (StronglySorted_app_inv (R := fun x y => snd y <= snd x)
           (firstn n counts) (skipn n counts)); try assumption.
  rewrite firstn_skipn. apply sort_values_descending.
Qed.

End ValueCountOrder.

Lemma valueCounts_exact_witness :
  exists counts,
    valueCounts (sort_by (@count_geb cell)) sample_df "journal" = Ok counts
    /\ In (Str "Lancet", 1) counts.
Proof.
  destruct (@valueCounts_exact (sort_by (@count_geb cell))
              (sort_by_perm (@count_geb cell)) sample_df "journal" eq_refl)
    as [counts [E [_ H]]].
  exists counts. split; [exact E|]. apply H. repeat split. simpl. lia.
Defined.

Lemma topN_keeps_the_largest_witness :
  exists top,
    topN (sort_by (@count_geb cell)) sample_df "journal" 1 = Ok top
    /\ List.length top = 1.
Proof.
  destruct (@topN_keeps_the_largest (sort_by (@count_geb cell))
              (@sort_by_count_descending cell) sample_df "journal" 1 eq_refl)
    as [top [counts [E _]]].
  exists top. split; [exact E|].
  simpl in E. inversion E. reflexivity.
Defined.

(** ** Publications per year (line 110) *)

Lemma StronglySorted_map_fwd {A B} (f : A -> B) (R : B -> B -> Prop)
      (l : list A) :
  StronglySorted (fun x y => R (f x) (f y)) l -> StronglySorted R (map f l).
Proof.
  induction 1 as [|x l Hs IH Hx]; simpl; constructor; [exact IH|].
  rewrite Forall_forall in *. intros b Hb. apply in_map_iff in Hb.
  destruct Hb as [a [<- Ha]]. apply Hx, Ha.
Qed.

Lemma leb_year (x y : cell * nat) :
  (exists z, fst x = Num z) -> (exists z, fst y = Num z) ->
  cell_leb (fst x) (fst y) = (year_of x <=? year_of y)%Z.
Proof.
  intros [a Ha] [b Hb]. unfold year_of. rewrite Ha, Hb. reflexivity.
Qed.

Lemma insert_by_year_sorted (x : cell * nat) (l : list (cell * nat)) :
  (exists z, fst x = Num z) ->
  Forall (fun e => exists z, fst e = Num z) l ->
  StronglySorted (fun a b => (year_of a <= year_of b)%Z) l ->
  StronglySorted (fun a b => (year_of a <= year_of b)%Z)
    (insert_by (fun a b => cell_leb (fst a) (fst b)) x l).
Proof.
  intros Hx. induction l as [|y l IH]; simpl; intros Hl Hs.
  - repeat constructor.
  - inversion Hs as [|? ? Hs' Hy]; subst.
    inversion Hl as [|? ? Hye Hl']; subst.
    rewrite (leb_year x y Hx Hye).
    destruct (Z.leb_spec (year_of x) (year_of y)) as [Hle|Hlt].
    + constructor; [exact Hs|]. constructor; [exact Hle|].
      rewrite Forall_forall in *. intros z Hz. specialize (Hy z Hz). lia.
    + constructor; [apply IH; assumption|].
      eapply Permutation_Forall; [symmetry; apply insert_by_perm|].
      constructor; [lia | exact Hy].
Qed.

Lemma sort_index_sorted (sv : list (cell * nat) -> list (cell * nat))
      (l : list (cell * nat)) :
  Forall (fun e => exists z, fst e = Num z) l ->
  StronglySorted (fun a b => (year_of a <= year_of b)%Z) (sort_index l).
Proof.
  unfold sort_index, sort_by.
  induction 1 as [|x l Hx Hl IH]; simpl; [constructor|].
  apply insert_by_year_sorted; [exact Hx | | exact IH].
  eapply Permutation_Forall; [symmetry; apply sort_by_perm | exact Hl].
Qed.

Lemma sorted_perm_unique {A} (key : A -> Z) (l1 l2 : list A) :
  Permutation l1 l2 ->
  StronglySorted (fun a b => (key a < key b)%Z) l1 ->
  StronglySorted (fun a b => (key a < key b)%Z) l2 ->
  l1 = l2.
Proof.
  revert l2. induction l1 as [|x l1 IH]; intros l2 P S1 S2.
  - apply Permutation_nil in P. subst. reflexivity.
  - destruct l2 as [|y l2];
      [apply Permutation_sym, Permutation_nil in P; discriminate|].
    inversion S1 as [|? ? S1' H1]; subst.
    inversion S2 as [|? ? S2' H2]; subst.
    rewrite Forall_forall in H1, H2.
    assert (Hxy : x = y).
    { assert (Hx : In x (y :: l2))
        by (eapply Permutation_in; [exact P | left; reflexivity]).
      assert (Hy : In y (x :: l1))
        by (eapply Permutation_in; [symmetry; exact P | left; reflexivity]).
      destruct Hx as [Hx|Hx]; [auto|].
      destruct Hy as [Hy|Hy]; [auto|].
      specialize (H1 y Hy). specialize (H2 x Hx). lia. }
    subst y. f_equal. apply IH; try assumption.
    eapply Permutation_cons_inv. exact P.
Qed.

Section PerYear.

Variable sort_values : list (cell * nat) -> list (cell * nat).
Hypothesis sort_values_perm : forall t, Permutation (sort_values t) t.

Lemma per_year_table (s : Series) :
  Forall (fun c => c = NaN \/ exists z, c = Num z) s ->
  let t := sort_index (value_counts sort_values s) in
  Permutation t (tally cell_same (dropna s))
  /\ map fst t = map Num (map year_of t)
  /\ StronglySorted Z.lt (map year_of t).
Proof.
  intros Hs t.
  assert (P : Permutation t (tally cell_same (dropna s))).
  { unfold t, sort_index. rewrite sort_by_perm. apply sort_values_perm. }
  assert (Hnum : Forall (fun e : cell * nat => exists z, fst e = Num z)
                        (tally cell_same (dropna s))).
  { apply Forall_forall. intros [k n] Hin. simpl.
    assert (Hk : In k (dropna s)).
    { apply (@tally_key_In _ _ cell_same_eq).
      change k with (fst (k, n)). apply in_map, Hin. }
    apply dropna_In in Hk. destruct Hk as [Hk Hp].
    rewrite Forall_forall in Hs. destruct (Hs k Hk) as [->|H];
      [discriminate | exact H]. }
  assert (Hnum' : Forall (fun e : cell * nat => exists z, fst e = Num z) t).
  { eapply Permutation_Forall; [symmetry; exact P | exact Hnum]. }
  assert (Ek : map fst t = map Num (map year_of t)).
  { rewrite map_map. apply map_ext_in. intros e He.
    rewrite Forall_forall in Hnum'. destruct (Hnum' e He) as [z Hz].
    unfold year_of. rewrite Hz. reflexivity. }
  split; [exact P|]. split; [exact Ek|].
  apply sorted_NoDup_strict.
  - apply StronglySorted_map_fwd. unfold t.
    apply (sort_index_sorted sort_values).
    eapply Permutation_Forall; [symmetry; apply sort_values_perm | exact Hnum].
  - apply (NoDup_map_inv Num). rewrite <- Ek.
    eapply Permutation_NoDup; [apply Permutation_map; symmetry; exact P|].
    apply (@tally_keys_NoDup _ _ cell_same_eq).
Qed.

End PerYear.

(** X15. For a year column (numbers and absent values), the table of
    publications per year lists each year that occurs once, in strictly
    increasing order, with counts that add up to the number of records
    that have a year; and it is the same table whatever order
    [value_counts] gives to equal counts. *)
Theorem papers_per_year_chronological :
  forall (sort_values : list (cell * nat) -> list (cell * nat)) (s : Series),
    (forall t, Permutation (sort_values t) t) ->
    Forall (fun c => c = NaN \/ exists z, c = Num z) s ->
    let table := sort_index (value_counts sort_values s) in
    map fst table = map Num (map year_of table)
    /\ StronglySorted Z.lt (map year_of table)
    /\ (forall y, In y (map year_of table) <-> In (Num y) s)
    /\ list_sum (map snd table) = List.length (dropna s)
    /\ (forall sort_values',
           (forall t, Permutation (sort_values' t) t) ->
           sort_index (value_counts sort_values' s) = table).
Proof.
  intros sv s Hsv Hs table.
  destruct (per_year_table sv Hsv Hs) as [P [Ek S]]. fold table in P, Ek, S.
  split; [exact Ek|]. split; [exact S|]. split; [|split].
  - intros y.
    assert (H : In y (map year_of table) <-> In (Num y) (map fst table)).
    { rewrite Ek. split; [apply in_map|].
      intros H. apply in_map_iff in H. destruct H as [z [Ez Hz]].
      inversion Ez; subst. exact Hz. }
    rewrite H.
    assert (H' : In (Num y) (map fst table) <->
                 In (Num y) (map fst (tally cell_same (dropna s)))).
    { split; apply Permutation_in; apply Permutation_map;
        [exact P | symmetry; exact P]. }
    rewrite H', (@tally_key_In _ _ cell_same_eq), dropna_In. simpl. tauto.
  - rewrite (Permutation_list_sum (Permutation_map snd P)).
    apply total_tally.
  - intros sv' Hsv'.
    destruct (per_year_table sv' Hsv' Hs) as [P' [_ S']].
    apply (sorted_perm_unique year_of).
    + rewrite P'. symmetry. exact P.
    + apply StronglySorted_map. exact S'.
    + apply StronglySorted_map. exact S.
Qed.

Lemma papers_per_year_chronological_witness :
  sort_index (value_counts (sort_by (@count_geb cell))
                [Num 2021; NaN; Num 2020; Num 2021])
  = sort_index (value_counts (fun t => rev (sort_by (@count_geb cell) t))
                  [Num 2021; NaN; Num 2020; Num 2021]).
Proof.
  assert (Hs : Forall (fun c => c = NaN \/ exists z, c = Num z)
                      [Num 2021; NaN; Num 2020; Num 2021]).
  { repeat (apply Forall_cons;
              [first [left; reflexivity | right; eexists; reflexivity]|]).
    apply Forall_nil. }
  symmetry.
  apply (proj2 (proj2 (proj2 (proj2
           (@papers_per_year_chronological (sort_by (@count_geb cell)) _
              (sort_by_perm (@count_geb cell)) Hs))))).
  intros t. rewrite <- Permutation_rev. apply sort_by_perm.
Defined.

(** ** The words of the joined titles (lines 145, 177) *)









(** ** Word frequencies: case, shape of the words, totals *)











(** ** The two warnings of tabs 5 and 6 (lines 147, 179) *)




(** ** A whole interaction *)





Lemma rbind_ok_inv {A B} (x : result A) (k : A -> result B) (b : B) :
  rbind x k = Ok b -> exists a, x = Ok a /\ k a = Ok b.
Proof. destruct x; simpl; intros H; [eauto | discriminate]. Qed.

Section InteractionFacts.

Variable convert : cell -> option Timestamp.
Variable sort_values : list (cell * nat) -> list (cell * nat).
Variable DTypes : Type.
Variable dtypes : DataFrame -> DTypes.
Variable Summary : Type.
Variable describe : DataFrame -> Summary.

Lemma dashboard_heap (h h' : heap) (df : ref) (sel : Selection)
      (v : Views DTypes Summary) :
  df < List.length h ->
  dashboard sort_values dtypes describe df sel h = Ok (v, h') ->
  exists news, h' = h ++ news.
Proof.
  intros Hdf E. unfold dashboard in E.
  step_frame E d.
  step_lift E o1 Eo1. step_lift E o2 Eo2. step_lift E o3 Eo3.
  apply bind_inv in E. destruct E as [r [h1 [Ef E]]].
  pose proof (apply_filters_run h sel Hdf) as Hrun.
  destruct (filter_model (deref h df) sel) as [fd|k];
    [|rewrite Ef in Hrun; discriminate].
  destruct Hrun as [r' [news [Ef' [_ [_ D]]]]].
  rewrite Ef in Ef'. inversion Ef'; subst r' h1. clear Ef'.
  step_frame E fd'. step_frame E d'.
  step_lift E per_year Ey. step_lift E top Et. step_lift E titles Ett.
  apply bind_inv in E. destruct E as [sources [h2 [Es E]]].
  exists news. inversion E; subst h'.
  destruct (has_column "source_x" (deref (h ++ news) r)).
  - step_lift Es c Ec. inversion Es. reflexivity.
  - inversion Es. reflexivity.
Qed.

(** X19. A whole interaction only adds frames to the store: every frame
    that existed before it, the loaded one included, is the same
    afterwards. *)
Theorem interaction_leaves_loaded_frame :
  forall (h h' : heap) (df : ref) (sel : Selection)
         (v : Views DTypes Summary),
    df < List.length h ->
    dashboard sort_values dtypes describe df sel h = Ok (v, h') ->
    (exists news, h' = h ++ news)
    /\ (forall r, r < List.length h -> deref h' r = deref h r)
    /\ deref h' df = deref h df.
Proof.
  intros h h' df sel v Hdf E.
  destruct (@dashboard_heap h h' df sel v Hdf E) as [news ->].
  split; [exists news; reflexivity|].
  split; [|apply deref_old, Hdf].
  intros r Hr. apply deref_old, Hr.
Qed.



End InteractionFacts.

Lemma interaction_leaves_loaded_frame_witness :
  exists v h',
    dashboard (sort_by (@count_geb cell)) columns count_row 0
              (mkSelection (Num 2020) All All) [sample_df] = Ok (v, h')
    /\ deref h' 0 = sample_df.
Proof.
  assert (H0 : 0 < List.length [sample_df]) by (simpl; lia).
  eexists. eexists. split; [reflexivity|].
  exact (proj2 (proj2 (@interaction_leaves_loaded_frame
                         (sort_by (@count_geb cell)) _ columns _ count_row
                         [sample_df] _ 0 (mkSelection (Num 2020) All All) _
                         H0 eq_refl))).
Defined.


(** ** download_data.py *)

(** X21. [download_data] never touches an existing dataset: when the
    file is there it prints the skip message and changes no file.  When
    the file is absent it announces the download before calling [gdown];
    if [gdown] produces the file, the file exists afterwards and a second
    run changes no file. *)
Theorem download_data_skips_existing_file :
  forall (gdown_download : string -> string -> World -> World) (w : World),
    (path_exists output w = true ->
     download_data gdown_download w
     = print "Dataset already exists. Skipping download." w
     /\ files (download_data gdown_download w) = files w)
    /\ (path_exists output w = false ->
        download_data gdown_download w
        = gdown_download url output
            (print "Downloading dataset from Google Drive..." w))
    /\ ((forall w0, path_exists output (gdown_download url output w0) = true) ->
        path_exists output (download_data gdown_download w) = true
        /\ files (download_data gdown_download
                    (download_data gdown_download w))
           = files (download_data gdown_download w)).
Proof.
  intros g w.
  assert (H1 : forall w1, path_exists output w1 = true ->
             download_data g w1
             = print "Dataset already exists. Skipping download." w1).
  { intros w1 H. unfold download_data. rewrite H. reflexivity. }
  split; [|split].
  - intros H. rewrite (H1 w H). split; reflexivity.
  - intros H. unfold download_data. rewrite H. reflexivity.
  - intros Hg.
    assert (He : path_exists output (download_data g w) = true).
    { destruct (path_exists output w) eqn:E.
      - rewrite (H1 w E). exact E.
      - unfold download_data. rewrite E. apply Hg. }
    split; [exact He|]. rewrite (H1 _ He). reflexivity.
Qed.

Lemma download_data_skips_existing_file_witness :
  files (download_data (write_file "title,abstract")
           (mkWorld [("metadata_subset.csv", "kept")] []))
  = [("metadata_subset.csv", "kept")]
  /\ path_exists output
       (download_data (write_file "title,abstract") (mkWorld [] [])) = true.
Proof.
  split.
  - exact (proj2 (proj1 (download_data_skips_existing_file
                           (write_file "title,abstract")
                           (mkWorld [("metadata_subset.csv", "kept")] []))
                    eq_refl)).
  - apply (proj2 (proj2 (download_data_skips_existing_file
                           (write_file "title,abstract") (mkWorld [] [])))).
    intros w0. reflexivity.
Defined.

(** ** The views of one interaction agree with each other *)

(** X22. In the views of one interaction the paper counter is the number
    of records of the downloaded frame and never exceeds that of the
    loaded frame; the shape line shows that counter and the number of
    columns of the loaded frame; the sample is the first twenty records
    of the download (all of them when there are at most twenty); the top
    journals are at most ten and the word table at most twenty entries. *)
Theorem views_are_consistent :
  forall (sort_values : list (cell * nat) -> list (cell * nat))
         (DTypes : Type) (dtypes : DataFrame -> DTypes)
         (Summary : Type) (describe : DataFrame -> Summary)
         (h h' : heap) (df : ref) (sel : Selection)
         (v : Views DTypes Summary),
    df < List.length h ->
    dashboard sort_values dtypes describe df sel h = Ok (v, h') ->
    showing v = len (download v)
    /\ showing v <= len (deref h df)
    /\ columns (download v) = columns (deref h df)
    /\ shape_filtered v = (showing v, List.length (columns (deref h df)))
    /\ columns (sample v) = columns (download v)
    /\ rows (sample v) = firstn 20 (rows (download v))
    /\ len (sample v) = Nat.min 20 (showing v)
    /\ (showing v <= 20 -> sample v = download v)
    /\ List.length (top_journals v) <= 10
    /\ List.length (word_counts v) <= 20.
Proof.
  intros sv DT dt S ds h h' df sel v Hdf E.
  destruct (@dashboard_run sv DT dt S ds h h' df sel v Hdf E)
    as [fd [py [top [ti [Ef [Ey [Et [Eti Ev]]]]]]]].
  destruct (filter_model_columns _ _ Ef) as [Hc Hr].
  subst v. cbn [showing download sample shape_filtered top_journals word_counts].
  split; [reflexivity|]. split.
  { unfold len. rewrite Hr. apply filter_length_le. }
  split; [exact Hc|]. split.
  { unfold shape. rewrite Hc. reflexivity. }
  split; [reflexivity|]. split; [reflexivity|]. split.
  { unfold len, head. cbn [rows]. apply length_firstn. }
  split.
  { intros Hle. unfold head. rewrite firstn_all2 by exact Hle.
    apply frame_eta. }
  split.
  - unfold topN in Et. apply rbind_ok_inv in Et.
    destruct Et as [s [_ Et]].
    assert (Etop : top = firstn 10 (value_counts sv s)) by congruence.
    rewrite Etop. apply firstn_le_length.
  - unfold word_frequencies, most_common. apply firstn_le_length.
Qed.

Lemma views_are_consistent_witness :
  exists v h',
    dashboard (sort_by (@count_geb cell)) columns count_row 0
              (mkSelection All (Str "Lancet") All) [sample_df] = Ok (v, h')
    /\ showing v = 1 /\ sample v = download v.
Proof.
  assert (H0 : 0 < List.length [sample_df]) by (simpl; lia).
  eexists. eexists. split; [reflexivity|].
  destruct (@views_are_consistent (sort_by (@count_geb cell)) _ columns _
              count_row [sample_df] _ 0 (mkSelection All (Str "Lancet") All)
              _ H0 eq_refl) as [_ [_ [_ [_ [_ [_ [_ [Hs _]]]]]]]].
  split; [reflexivity|]. apply Hs. vm_compute. lia.
Defined.
